(** * The AWS Config rule template [rule_code.js] (nodejs4.3 runtime)

    A shallow embedding of [src/rdk/template/runtime/nodejs4.3/rule_code.js]
    and the properties of its notification handler: snapshot resolution,
    the applicability filter, assembling the PutEvaluations request and
    reporting it. *)

From Stdlib Require Import ZArith List String Ascii Bool Lia DecimalString.
Import ListNotations.
Open Scope string_scope.
Open Scope Z_scope.

Set Warnings "-register-all".

(** ** JavaScript values

    The script is dynamically typed: it tests truthiness ([!reference]),
    [typeof], [instanceof] and [===] on whatever it is handed.  Values are
    therefore the JavaScript values themselves.  An object carries its class
    (plain object, [Array], [String] wrapper, [Date]) and its named
    properties in insertion order.  Numbers are the integers: the script only
    produces [1] and array lengths, and otherwise tests numbers for
    truthiness. *)

Inductive value : Type :=
| JUndefined
| JNull
| JBool (b : bool)
| JNum (n : Z)
| JStr (s : string)
| JObj (c : objclass) (props : list (string * value))
with objclass : Type :=
| OPlain
| OArray (elems : list value)
| OString (s : string)
| ODate (t : value).

(** Object and array literals. *)
Definition JRec (props : list (string * value)) : value := JObj OPlain props.
Definition JArr (elems : list value) : value := JObj (OArray elems) [].

(** What the script can raise. *)
Inductive exn : Type :=
| Error (msg : string)
| TypeError (msg : string)
| ReferenceError (msg : string)
| SyntaxError (msg : string).

Inductive outcome (A : Type) : Type :=
| Ret (a : A)
| Throw (e : exn).
Arguments Ret {A} a.
Arguments Throw {A} e.

(** What the script does to the outside world, in order. *)
Inductive effect : Type :=
| ConsoleInfo (v : value)
| GetResourceConfigHistory (request : value)
| PutEvaluations (request : value)
| Callback (err data : value).

(** ** Computations: a trace of effects and a result or an exception *)

Definition M (A : Type) : Type := (list effect * outcome A)%type.

Definition ret {A} (a : A) : M A := ([], Ret a).
Definition throw {A} (e : exn) : M A := ([], Throw e).
Definition lift {A} (r : outcome A) : M A := ([], r).
Definition emit (e : effect) : M unit := ([e], Ret tt).

Definition bind {A B} (m : M A) (f : A -> M B) : M B :=
  match m with
  | (t, Ret a) => let (t', r) := f a in ((t ++ t')%list, r)
  | (t, Throw e) => (t, Throw e)
  end.

Definition obind {A B} (r : outcome A) (f : A -> outcome B) : outcome B :=
  match r with
  | Ret a => f a
  | Throw e => Throw e
  end.

Declare Scope js_scope.
Delimit Scope js_scope with js.
Notation "x <- m ;; k" := (bind m (fun x => k))
  (at level 61, m at next level, right associativity) : js_scope.
Notation "m ;; k" := (bind m (fun _ => k))
  (at level 61, right associativity) : js_scope.
Notation "x <~ r ;; k" := (obind r (fun x => k))
  (at level 61, r at next level, right associativity) : js_scope.
Open Scope js_scope.

Definition trace {A} (m : M A) : list effect := fst m.
Definition result {A} (m : M A) : outcome A := snd m.

(** [if (c) { m }] with no [else]: control falls through afterwards. *)
Definition when (c : bool) (m : M unit) : M unit :=
  if c then m else ret tt.

(** ** Primitive operations *)

(** [!!v] *)
Definition truthy (v : value) : bool :=
  match v with
  | JUndefined | JNull => false
  | JBool b => b
  | JNum n => negb (n =? 0)
  | JStr s => negb (s =? "")%string
  | JObj _ _ => true
  end.

(** [a === b].  Two objects are equal when they are the same reference; the
    values compared by the script are either a literal or come out of two
    separate [JSON.parse] results, so two objects are never the same one. *)
Definition strict_eq (a b : value) : bool :=
  match a, b with
  | JUndefined, JUndefined => true
  | JNull, JNull => true
  | JBool x, JBool y => Bool.eqb x y
  | JNum x, JNum y => (x =? y)
  | JStr x, JStr y => (x =? y)%string
  | _, _ => false
  end.

Fixpoint lookup (k : string) (props : list (string * value)) : option value :=
  match props with
  | [] => None
  | (k', v) :: rest => if (k =? k')%string then Some v else lookup k rest
  end.

(** Assignment to a property keeps the position of an existing key and
    appends a new one. *)
Fixpoint update (k : string) (v : value) (props : list (string * value))
  : list (string * value) :=
  match props with
  | [] => [(k, v)]
  | (k', v') :: rest =>
      if (k =? k')%string then (k, v) :: rest else (k', v') :: update k v rest
  end.

Definition type_name (v : value) : string :=
  match v with
  | JUndefined => "undefined"
  | JNull => "null"
  | _ => "value"
  end.

Definition of_option (o : option value) : value :=
  match o with
  | Some v => v
  | None => JUndefined
  end.

(** [v.k] for a property name [k].  The names the script reads are never
    names of the built-in prototypes, so only own properties and [length]
    are looked at. *)
Definition get (v : value) (k : string) : outcome value :=
  match v with
  | JUndefined | JNull =>
      Throw (TypeError ("Cannot read property '" ++ k ++ "' of " ++ type_name v))
  | JBool _ | JNum _ => Ret JUndefined
  | JStr s =>
      if (k =? "length")%string then Ret (JNum (Z.of_nat (String.length s)))
      else Ret JUndefined
  | JObj (OArray xs) props =>
      if (k =? "length")%string then Ret (JNum (Z.of_nat (List.length xs)))
      else Ret (of_option (lookup k props))
  | JObj (OString s) props =>
      if (k =? "length")%string then Ret (JNum (Z.of_nat (String.length s)))
      else Ret (of_option (lookup k props))
  | JObj _ props => Ret (of_option (lookup k props))
  end.

(** [v.k = x], in strict mode: assigning to a property of a primitive
    raises.  The names the script assigns are never [length]. *)
Definition set (v : value) (k : string) (x : value) : outcome value :=
  match v with
  | JUndefined | JNull =>
      Throw (TypeError ("Cannot set property '" ++ k ++ "' of " ++ type_name v))
  | JBool _ | JNum _ | JStr _ =>
      Throw (TypeError ("Cannot create property '" ++ k ++ "' on a primitive"))
  | JObj c props => Ret (JObj c (update k x props))
  end.

(** ** The example rule *)

(** [evaluateCompliance], lines 33-40. *)
Definition evaluateCompliance (configurationItem ruleParameters : value)
  : outcome value :=
  resourceType <~ get configurationItem "resourceType" ;;
  if negb (strict_eq resourceType (JStr "AWS::EC2::Instance")) then
    Ret (JStr "NOT_APPLICABLE")
  else
    desired <~ get ruleParameters "desiredInstanceType" ;;
    configuration <~ get configurationItem "configuration" ;;
    instanceType <~ get configuration "instanceType" ;;
    if strict_eq desired instanceType then Ret (JStr "COMPLIANT")
    else Ret (JStr "NON_COMPLIANT").

(** ** Input validation *)

(** [checkDefined], lines 55-60. *)
Definition checkDefined (reference : value) (referenceName : string)
  : outcome value :=
  if negb (truthy reference) then
    Throw (Error ("Error: " ++ referenceName ++ " is not defined"))
  else Ret reference.

(** [isOverSizedChangeNotification], lines 63-66. *)
Definition isOverSizedChangeNotification (messageType : value) : outcome bool :=
  _ <~ checkDefined messageType "messageType" ;;
  Ret (strict_eq messageType (JStr "OversizedConfigurationItemChangeNotification")).

(** [isScheduledNotification], lines 69-72. *)
Definition isScheduledNotification (messageType : value) : outcome bool :=
  _ <~ checkDefined messageType "messageType" ;;
  Ret (strict_eq messageType (JStr "ScheduledNotification")).

(** [isApplicable], lines 122-128. *)
Definition isApplicable (configurationItem event : value) : outcome bool :=
  _ <~ checkDefined configurationItem "configurationItem" ;;
  _ <~ checkDefined event "event" ;;
  status <~ get configurationItem "configurationItemStatus" ;;
  eventLeftScope <~ get event "eventLeftScope" ;;
  Ret ((strict_eq status (JStr "OK") || strict_eq status (JStr "ResourceDiscovered"))
       && strict_eq eventLeftScope (JBool false)).

(** ** Indexed access and numeric comparison *)

Definition index_key (i : nat) : string :=
  NilEmpty.string_of_uint (Nat.to_uint i).

Definition char_at (s : string) (i : nat) : value :=
  match String.get i s with
  | Some c => JStr (String c EmptyString)
  | None => JUndefined
  end.

(** [v[i]] *)
Definition get_index (v : value) (i : nat) : outcome value :=
  match v with
  | JUndefined | JNull =>
      Throw (TypeError ("Cannot read property '" ++ index_key i ++ "' of " ++ type_name v))
  | JBool _ | JNum _ => Ret JUndefined
  | JStr s => Ret (char_at s i)
  | JObj (OArray xs) _ => Ret (nth i xs JUndefined)
  | JObj (OString s) _ => Ret (char_at s i)
  | JObj _ props => Ret (of_option (lookup (index_key i) props))
  end.

Fixpoint store (i : nat) (x : value) (xs : list value) : list value :=
  match i, xs with
  | O, [] => [x]
  | O, _ :: rest => x :: rest
  | S i', [] => JUndefined :: store i' x []
  | S i', y :: rest => y :: store i' x rest
  end.

(** [v[i] = x], in strict mode.  An array grows when [i] is past its end;
    the characters of a [String] cannot be assigned. *)
Definition set_index (v : value) (i : nat) (x : value) : outcome value :=
  match v with
  | JUndefined | JNull =>
      Throw (TypeError ("Cannot set property '" ++ index_key i ++ "' of " ++ type_name v))
  | JBool _ | JNum _ | JStr _ =>
      Throw (TypeError ("Cannot create property '" ++ index_key i ++ "' on a primitive"))
  | JObj (OArray xs) props => Ret (JObj (OArray (store i x xs)) props)
  | JObj (OString s) props =>
      Throw (TypeError ("Cannot assign to read only property '" ++ index_key i ++ "'"))
  | JObj c props => Ret (JObj c (update (index_key i) x props))
  end.

(** [{}.hasOwnProperty.call(v, k)] for a property name [k] that is neither
    [length] nor an index. *)
Definition hasOwnProperty (v : value) (k : string) : outcome bool :=
  match v with
  | JUndefined | JNull => Throw (TypeError "Cannot convert undefined or null to object")
  | JObj _ props => Ret (match lookup k props with Some _ => true | None => false end)
  | _ => Ret false
  end.

(** ** The runtime the script runs in

    [JSON.parse] and [JSON.stringify], the number a string or an object
    converts to in a comparison ([None] is NaN), and what the two AWS Config
    calls hand to their callbacks: the pair [(err, data)].  Each call calls
    back once; the handler runs on as one sequence of steps, and an
    exception raised in a callback ends it. *)

Record Runtime : Type := {
  JSON_parse : value -> outcome value;
  JSON_stringify : value -> value;
  ToNumber : value -> option Z;
  getResourceConfigHistory : value -> value * value;
  putEvaluations : value -> value * value
}.

Section Handler.

Context (rt : Runtime).

(** The rule's decision function.  The template ships [evaluateCompliance]
    and is meant to have it replaced. *)
Variable evaluate : value -> value -> outcome value.

(** The number a value converts to when compared with [<] or [>]. *)
Definition to_number (v : value) : option Z :=
  match v with
  | JUndefined => None
  | JNull => Some 0
  | JBool b => Some (if b then 1 else 0)
  | JNum n => Some n
  | _ => ToNumber rt v
  end.

(** [v > 0] *)
Definition positive (v : value) : bool :=
  match to_number v with
  | Some n => 0 <? n
  | None => false
  end.

(** How many times [for (let i = 0; i < len; i++)] runs its body. *)
Definition iterations (len : value) : nat :=
  match to_number len with
  | Some n => Z.to_nat n
  | None => O
  end.

(** [rule_handler], lines 42-48.  [context] is not used. *)
Definition rule_handler {A} (event : value) (callback : value -> value -> M A) : M A :=
  emit (ConsoleInfo event) ;;
  invokingEvent <- lift (s <~ get event "invokingEvent" ;; JSON_parse rt s) ;;
  configItem <- lift (get invokingEvent "configurationItem") ;;
  ruleParameters <- lift (s <~ get event "ruleParameters" ;; JSON_parse rt s) ;;
  compliance <- lift (evaluate configItem ruleParameters) ;;
  callback JNull compliance.

(** The request of line 76: [{ resourceType, resourceId, laterTime: new
    Date(configurationCaptureTime), limit: 1 }]. *)
Definition historyRequest (resourceType resourceId configurationCaptureTime : value) : value :=
  JRec [("resourceType", resourceType);
        ("resourceId", resourceId);
        ("laterTime", JObj (ODate configurationCaptureTime) []);
        ("limit", JNum 1)].

(** [getConfiguration], lines 75-83.  After [callback(err, null)] control
    falls through to the read of [data.configurationItems]. *)
Definition getConfiguration (resourceType resourceId configurationCaptureTime : value)
    (callback : value -> value -> M unit) : M unit :=
  let request := historyRequest resourceType resourceId configurationCaptureTime in
  emit (GetResourceConfigHistory request) ;;
  let (err, data) := getResourceConfigHistory rt request in
  when (truthy err) (callback err JNull) ;;
  configurationItem <- lift (items <~ get data "configurationItems" ;; get_index items 0) ;;
  callback JNull configurationItem.

(** The body of the loop of lines 94-96, at index [i]. *)
Definition renameRelationship (apiConfiguration : value) (i : nat) : outcome value :=
  relationships <~ get apiConfiguration "relationships" ;;
  relationship <~ get_index relationships i ;;
  relationshipName <~ get relationship "relationshipName" ;;
  relationship' <~ set relationship "name" relationshipName ;;
  relationships' <~ set_index relationships i relationship' ;;
  set apiConfiguration "relationships" relationships'.

(** The loop of lines 94-96 from index [i], with [n] rounds to go.  The body
    leaves the length of [relationships] as it is. *)
Fixpoint renameRelationships (n : nat) (i : nat) (apiConfiguration : value)
  : outcome value :=
  match n with
  | O => Ret apiConfiguration
  | S n' =>
      apiConfiguration' <~ renameRelationship apiConfiguration i ;;
      renameRelationships n' (S i) apiConfiguration'
  end.

(** [convertApiConfiguration], lines 87-99.  The object is changed in place
    and returned. *)
Definition convertApiConfiguration (apiConfiguration : value) : outcome value :=
  accountId <~ get apiConfiguration "accountId" ;;
  a1 <~ set apiConfiguration "awsAccountId" accountId ;;
  arn <~ get a1 "arn" ;;
  a2 <~ set a1 "ARN" arn ;;
  md5 <~ get a2 "configurationItemMD5Hash" ;;
  a3 <~ set a2 "configurationStateMd5Hash" md5 ;;
  version <~ get a3 "version" ;;
  a4 <~ set a3 "configurationItemVersion" version ;;
  configuration <~ (s <~ get a4 "configuration" ;; JSON_parse rt s) ;;
  a5 <~ set a4 "configuration" configuration ;;
  own <~ hasOwnProperty a5 "relationships" ;;
  if own then
    relationships <~ get a5 "relationships" ;;
    len <~ get relationships "length" ;;
    renameRelationships (iterations len) 0 a5
  else Ret a5.

(** [getConfigurationItem], lines 102-119.  After [callback(err)] control
    falls through to the conversion. *)
Definition getConfigurationItem (invokingEvent : value)
    (callback : value -> value -> M unit) : M unit :=
  lift (checkDefined invokingEvent "invokingEvent") ;;
  oversized <- lift (t <~ get invokingEvent "messageType" ;; isOverSizedChangeNotification t) ;;
  if oversized : bool then
    configurationItemSummary <-
      lift (s <~ get invokingEvent "configurationItemSummary" ;;
            checkDefined s "configurationItemSummary") ;;
    resourceType <- lift (get configurationItemSummary "resourceType") ;;
    resourceId <- lift (get configurationItemSummary "resourceId") ;;
    captureTime <- lift (get configurationItemSummary "configurationItemCaptureTime") ;;
    getConfiguration resourceType resourceId captureTime
      (fun err apiConfigurationItem =>
         when (truthy err) (callback err JUndefined) ;;
         configurationItem <- lift (convertApiConfiguration apiConfigurationItem) ;;
         callback JNull configurationItem)
  else
    scheduled <- lift (t <~ get invokingEvent "messageType" ;; isScheduledNotification t) ;;
    if scheduled : bool then callback JNull JNull
    else
      embedded <- lift (get invokingEvent "configurationItem") ;;
      lift (checkDefined embedded "configurationItem") ;;
      configurationItem <- lift (get invokingEvent "configurationItem") ;;
      callback JNull configurationItem.

(** The callback Lambda hands to the handler: it records the outcome of the
    invocation. *)
Definition callback (err data : value) : M unit := emit (Callback err data).

Definition scheduled_message : string :=
  "RDK utility class does not yet support Scheduled Notifications.".

(** One entry of [putEvaluationsRequest.Evaluations], lines 158-163 and
    184-189. *)
Definition evaluation (configurationItem compliance : value) : outcome value :=
  resourceType <~ get configurationItem "resourceType" ;;
  resourceId <~ get configurationItem "resourceId" ;;
  captureTime <~ get configurationItem "configurationItemCaptureTime" ;;
  Ret (JRec [("ComplianceResourceType", resourceType);
             ("ComplianceResourceId", resourceId);
             ("ComplianceType", compliance);
             ("OrderingTimestamp", captureTime)]).

(** [typeof v === 'string' || v instanceof String] *)
Definition isString (v : value) : bool :=
  match v with
  | JStr _ | JObj (OString _) _ => true
  | _ => false
  end.

(** [v instanceof Array] *)
Definition isArray (v : value) : bool :=
  match v with
  | JObj (OArray _) _ => true
  | _ => false
  end.

(** [name = ...] for a [name] that no [var], [let], [const] or parameter
    declares: in strict mode the assignment raises. *)
Definition assignUndeclared {A} (name : string) : outcome A :=
  Throw (ReferenceError (name ++ " is not defined")).

(** "Put together the request that reports the evaluation status", lines
    155-191 of [exports.lambda_handler], starting from the empty
    [putEvaluationsRequest] of line 144.

    The branch for a list of evaluations (lines 166-181) opens with
    [fields = [...]], an assignment to a name that is declared nowhere:
    the file is in strict mode, so this statement raises a ReferenceError
    and nothing after it in the branch runs.  (The rest of the branch reads
    [compliace.length], a name that does not exist either, and calls
    [append] on the [Evaluations] property that the branch never creates;
    the header of its inner [for] has no update clause and line 172 leaves a
    bracket open, so that a JavaScript engine rejects the file as it stands;
    the embedding reads every function statement by statement all the
    same.) *)
Definition assembleRequest (compliance configurationItem : value) : outcome value :=
  let putEvaluationsRequest := JRec [] in
  if isString compliance then
    e <~ evaluation configurationItem compliance ;;
    set putEvaluationsRequest "Evaluations" (JArr [e])
  else if isArray compliance then
    assignUndeclared "fields"
  else
    e <~ evaluation configurationItem (JStr "NOT_APPLICABLE") ;;
    set putEvaluationsRequest "Evaluations" (JArr [e]).

(** "Invoke the Config API to report the result of the evaluation", lines
    193-205 of [exports.lambda_handler]. *)
Definition reportEvaluations (event putEvaluationsRequest : value) : M unit :=
  request <- lift (resultToken <~ get event "resultToken" ;;
                   set putEvaluationsRequest "ResultToken" resultToken) ;;
  emit (PutEvaluations request) ;;
  let (error, data) := putEvaluations rt request in
  if truthy error then callback error JNull
  else
    failed <- lift (f <~ get data "FailedEvaluations" ;; get f "length") ;;
    if positive failed then callback (JSON_stringify rt data) JNull
    else callback JNull data.

(** The function [exports.lambda_handler] passes to [getConfigurationItem],
    lines 136-206.  Neither [callback(err)] nor the callback for a missing
    configuration item is followed by a [return]: control falls through to
    [isApplicable].  [rule_handler] calls back before it returns, so
    [compliance] holds the computed value when the request is assembled;
    [event] is changed in place on line 147. *)
Definition onConfigurationItem (event invokingEvent err configurationItem : value)
  : M unit :=
  when (truthy err) (callback err JUndefined) ;;
  when (negb (truthy configurationItem)) (callback (JStr scheduled_message) JUndefined) ;;
  applicable <- lift (isApplicable configurationItem event) ;;
  ec <- (if applicable : bool then
           invokingEvent' <- lift (set invokingEvent "configurationItem" configurationItem) ;;
           event' <- lift (set event "invokingEvent" (JSON_stringify rt invokingEvent')) ;;
           rule_handler event'
             (fun err computedCompliance =>
                when (truthy err) (callback err JUndefined) ;;
                ret (event', computedCompliance))
         else ret (event, JStr "NOT_APPLICABLE")) ;;
  let (event', compliance) := ec : value * value in
  putEvaluationsRequest <- lift (assembleRequest compliance configurationItem) ;;
  reportEvaluations event' putEvaluationsRequest.

(** [exports.lambda_handler], lines 132-207: the handler Lambda invokes (the
    assignment of line 50 is overwritten by this one).  [context] is not
    used. *)
Definition lambda_handler (event : value) : M unit :=
  lift (checkDefined event "event") ;;
  invokingEvent <- lift (s <~ get event "invokingEvent" ;; JSON_parse rt s) ;;
  ruleParameters <- lift (s <~ get event "ruleParameters" ;; JSON_parse rt s) ;;
  getConfigurationItem invokingEvent (onConfigurationItem event invokingEvent).

End Handler.

(** ** A runtime and payloads for worked examples *)

Module Demo.

Definition item : value :=
  JRec [("resourceType", JStr "AWS::EC2::Instance");
        ("resourceId", JStr "i-0001");
        ("configurationItemStatus", JStr "OK");
        ("configurationItemCaptureTime", JStr "2017-01-01T00:00:00.000Z");
        ("configuration", JRec [("instanceType", JStr "t2.micro")])].

Definition params : value := JRec [("desiredInstanceType", JStr "t2.micro")].

Definition change : value :=
  JRec [("messageType", JStr "ConfigurationItemChangeNotification");
        ("configurationItem", item)].

Definition change_without_item : value :=
  JRec [("messageType", JStr "ConfigurationItemChangeNotification")].

Definition scheduled : value :=
  JRec [("messageType", JStr "ScheduledNotification")].

Definition summary : value :=
  JRec [("resourceType", JStr "AWS::EC2::Instance");
        ("resourceId", JStr "i-0001");
        ("configurationItemCaptureTime", JStr "2017-01-01T00:00:00.000Z")].

Definition oversized : value :=
  JRec [("messageType", JStr "OversizedConfigurationItemChangeNotification");
        ("configurationItemSummary", summary)].

Definition oversized_without_summary : value :=
  JRec [("messageType", JStr "OversizedConfigurationItemChangeNotification")].

(** The texts stand for the serialized payloads: the runtime below parses
    each to the value of the same name. *)
Definition parse (v : value) : outcome value :=
  match v with
  | JStr s =>
      if (s =? "change")%string then Ret change
      else if (s =? "scheduled")%string then Ret scheduled
      else if (s =? "oversized")%string then Ret oversized
      else if (s =? "params")%string then Ret params
      else if (s =? "changed")%string then Ret change
      else Throw (SyntaxError "Unexpected token")
  | _ => Throw (SyntaxError "Unexpected token")
  end.

Definition stringify (v : value) : value :=
  match v with
  | JObj _ (("FailedEvaluations", _) :: _) => JStr "failures"
  | JObj _ _ => JStr "changed"
  | _ => JUndefined
  end.

(** The history service knows no item; the tracking service accepts every
    evaluation. *)
Definition runtime : Runtime := {|
  JSON_parse := parse;
  JSON_stringify := stringify;
  ToNumber := fun _ => None;
  getResourceConfigHistory := fun _ => (JNull, JRec [("configurationItems", JArr [])]);
  putEvaluations := fun _ => (JNull, JRec [("FailedEvaluations", JArr [])])
|}.

(** A tracking service that turns one evaluation down. *)
Definition rejecting : Runtime := {|
  JSON_parse := parse;
  JSON_stringify := stringify;
  ToNumber := fun _ => None;
  getResourceConfigHistory := fun _ => (JNull, JRec [("configurationItems", JArr [])]);
  putEvaluations := fun _ =>
    (JNull, JRec [("FailedEvaluations", JArr [JRec [("ComplianceResourceId", JStr "i-0001")]])])
|}.

Definition event_of (invokingEvent : string) : value :=
  JRec [("invokingEvent", JStr invokingEvent);
        ("ruleParameters", JStr "params");
        ("resultToken", JStr "token-1");
        ("eventLeftScope", JBool false)].

End Demo.

(** ** What the statements speak about *)

(** The two message types the resolver singles out. *)
Definition oversizedType : value := JStr "OversizedConfigurationItemChangeNotification".
Definition scheduledType : value := JStr "ScheduledNotification".

(** The condition of the rule, on the values the filter reads. *)
Definition in_scope_status (status : value) : Prop :=
  status = JStr "OK" \/ status = JStr "ResourceDiscovered".

(** The requests sent to the tracking service, in order. *)
Definition submissions (t : list effect) : list value :=
  flat_map (fun e => match e with PutEvaluations r => [r] | _ => [] end) t.

(** What the invocation was told through its callback, in order. *)
Definition callbacks (t : list effect) : list (value * value) :=
  flat_map (fun e => match e with Callback err data => [(err, data)] | _ => [] end) t.

(** A computation that sends nothing to the tracking service. *)
Definition quiet {A} (m : M A) : Prop := submissions (trace m) = [].

(** The records of a request: the elements of its [Evaluations]. *)
Definition records (request : value) : list value :=
  match get request "Evaluations" with
  | Ret (JObj (OArray xs) _) => xs
  | _ => []
  end.

(** At most one request is sent, and it carries the token [resultToken]. *)
Definition token_once (resultToken : value) (t : list effect) : Prop :=
  submissions t = [] \/
  exists request,
    submissions t = [request] /\ get request "ResultToken" = Ret resultToken.

Module ListVerdict.

(** A rule that assesses two resources in one call and returns a list of
    well-formed evaluations. *)
Definition verdict : value :=
  JArr [JRec [("ComplianceResourceType", JStr "AWS::EC2::Instance");
              ("ComplianceResourceId", JStr "i-0001");
              ("ComplianceType", JStr "COMPLIANT");
              ("OrderingTimestamp", JStr "2017-01-01T00:00:00.000Z")];
        JRec [("ComplianceResourceType", JStr "AWS::EC2::Instance");
              ("ComplianceResourceId", JStr "i-0002");
              ("ComplianceType", JStr "NON_COMPLIANT");
              ("OrderingTimestamp", JStr "2017-01-01T00:00:00.000Z")]].

Definition rule (configurationItem ruleParameters : value) : outcome value :=
  Ret verdict.

End ListVerdict.

(** What line 95 does to one relationship that is an object: its [name]
    becomes its [relationshipName]. *)
Definition renamed (relationship : value) : value :=
  match relationship with
  | JObj c props =>
      JObj c (update "name" (of_option (lookup "relationshipName" props)) props)
  | _ => relationship
  end.

(** The properties of an item after lines 88-92, given the parsed
    configuration. *)
Definition convertedProps (configuration : value) (props : list (string * value))
  : list (string * value) :=
  update "configuration" configuration
    (update "configurationItemVersion" (of_option (lookup "version" props))
       (update "configurationStateMd5Hash"
          (of_option (lookup "configurationItemMD5Hash" props))
          (update "ARN" (of_option (lookup "arn" props))
             (update "awsAccountId" (of_option (lookup "accountId" props)) props)))).

Definition isObject (v : value) : bool :=
  match v with
  | JObj _ _ => true
  | _ => false
  end.

(** The names [convertApiConfiguration] assigns. *)
Definition convertedNames : list string :=
  ["awsAccountId"; "ARN"; "configurationStateMd5Hash"; "configurationItemVersion";
   "configuration"; "relationships"].

Definition assigned (k : string) : bool :=
  existsb (String.eqb k) convertedNames.

(** Every callback in the trace reports an error. *)
Definition failing (t : list effect) : Prop :=
  forall err data, In (Callback err data) t -> truthy err = true.

(** No callback and no request in the trace. *)
Definition silent (t : list effect) : Prop :=
  submissions t = [] /\ callbacks t = [].

(** The three compliance types of the example rule. *)
Definition labels : list value :=
  [JStr "COMPLIANT"; JStr "NON_COMPLIANT"; JStr "NOT_APPLICABLE"].

(** How a run of the handler ends: either it raises, having sent nothing
    and told the callback of errors only, or it goes through the reporting
    step for a request assembled for a defined configuration item, with
    nothing sent and no callback before that step. *)
Definition aborted (m : M unit) : Prop :=
  submissions (trace m) = [] /\ failing (trace m) /\ exists e, result m = Throw e.

Definition reported (rt : Runtime) (evaluate : value -> value -> outcome value)
    (event : value) (m : M unit) : Prop :=
  exists (pre : list effect) (event' compliance item request : value),
    m = ((pre ++ trace (reportEvaluations rt event' request))%list,
         result (reportEvaluations rt event' request)) /\
    silent pre /\
    truthy item = true /\
    truthy event' = true /\
    get event' "resultToken" = get event "resultToken" /\
    assembleRequest compliance item = Ret request /\
    (compliance = JStr "NOT_APPLICABLE" \/
     exists configurationItem ruleParameters,
       evaluate configurationItem ruleParameters = Ret compliance).

(** The requests made to the history service, in order. *)
Definition lookups (t : list effect) : list value :=
  flat_map (fun e => match e with GetResourceConfigHistory r => [r] | _ => [] end) t.

(** A computation that does not ask the history service. *)
Definition calm {A} (m : M A) : Prop := lookups (trace m) = [].

(** Every run of a step of the handler ends in one of the two ways. *)
Definition shaped (rt : Runtime) (evaluate : value -> value -> outcome value)
    (event : value) (m : M unit) : Prop :=
  aborted m \/ reported rt evaluate event m.

Module History.

(** What the history service holds for the instance of [Demo]: one item in
    the service's own field names, its configuration still serialized. *)
Definition relationship : value :=
  JRec [("relationshipName", JStr "Is attached to Volume");
        ("resourceId", JStr "vol-0001")].

Definition record : value :=
  JRec [("accountId", JStr "123456789012");
        ("arn", JStr "arn:aws:ec2:i-0001");
        ("configurationItemMD5Hash", JStr "d41d8cd9");
        ("version", JStr "1.2");
        ("resourceType", JStr "AWS::EC2::Instance");
        ("resourceId", JStr "i-0001");
        ("configurationItemStatus", JStr "OK");
        ("configurationItemCaptureTime", JStr "2017-01-01T00:00:00.000Z");
        ("configuration", JStr "configuration");
        ("relationships", JArr [relationship])].

Definition record_without_relationships : value :=
  JRec [("accountId", JStr "123456789012");
        ("arn", JStr "arn:aws:ec2:i-0001");
        ("configurationItemMD5Hash", JStr "d41d8cd9");
        ("version", JStr "1.2");
        ("configuration", JStr "configuration")].

Definition parse (v : value) : outcome value :=
  match v with
  | JStr s =>
      if (s =? "configuration")%string then Ret (JRec [("instanceType", JStr "t2.micro")])
      else Demo.parse v
  | _ => Demo.parse v
  end.

(** The history service finds the item. *)
Definition runtime : Runtime := {|
  JSON_parse := parse;
  JSON_stringify := Demo.stringify;
  ToNumber := fun _ => None;
  getResourceConfigHistory := fun _ => (JNull, JRec [("configurationItems", JArr [record])]);
  putEvaluations := fun _ => (JNull, JRec [("FailedEvaluations", JArr [])])
|}.

(** The history service turns the call down. *)
Definition throttled : Runtime := {|
  JSON_parse := parse;
  JSON_stringify := Demo.stringify;
  ToNumber := fun _ => None;
  getResourceConfigHistory := fun _ => (JStr "ThrottlingException", JNull);
  putEvaluations := fun _ => (JNull, JRec [("FailedEvaluations", JArr [])])
|}.

(** The item above after conversion, and the notification with that item
    stored in it. *)
Definition item : value :=
  JRec [("accountId", JStr "123456789012");
        ("arn", JStr "arn:aws:ec2:i-0001");
        ("configurationItemMD5Hash", JStr "d41d8cd9");
        ("version", JStr "1.2");
        ("resourceType", JStr "AWS::EC2::Instance");
        ("resourceId", JStr "i-0001");
        ("configurationItemStatus", JStr "OK");
        ("configurationItemCaptureTime", JStr "2017-01-01T00:00:00.000Z");
        ("configuration", JRec [("instanceType", JStr "t2.micro")]);
        ("relationships",
         JArr [JRec [("relationshipName", JStr "Is attached to Volume");
                     ("resourceId", JStr "vol-0001");
                     ("name", JStr "Is attached to Volume")]]);
        ("awsAccountId", JStr "123456789012");
        ("ARN", JStr "arn:aws:ec2:i-0001");
        ("configurationStateMd5Hash", JStr "d41d8cd9");
        ("configurationItemVersion", JStr "1.2")].

Definition resolved : value :=
  JRec [("messageType", JStr "OversizedConfigurationItemChangeNotification");
        ("configurationItemSummary", Demo.summary);
        ("configurationItem", item)].

(** A runtime whose [JSON.parse] gives back what [JSON.stringify] was
    given, for the notification above. *)
Definition stringify (v : value) : value :=
  match v with
  | JObj _ [("messageType", _); ("configurationItemSummary", _); ("configurationItem", _)] =>
      JStr "resolved"
  | _ => Demo.stringify v
  end.

Definition parse_resolved (v : value) : outcome value :=
  match v with
  | JStr s => if (s =? "resolved")%string then Ret resolved else parse v
  | _ => parse v
  end.

Definition faithful : Runtime := {|
  JSON_parse := parse_resolved;
  JSON_stringify := stringify;
  ToNumber := fun _ => None;
  getResourceConfigHistory := fun _ => (JNull, JRec [("configurationItems", JArr [record])]);
  putEvaluations := fun _ => (JNull, JRec [("FailedEvaluations", JArr [])])
|}.

End History.

Module Tracking.

(** The tracking service turns the call down. *)
Definition unavailable : Runtime := {|
  JSON_parse := Demo.parse;
  JSON_stringify := Demo.stringify;
  ToNumber := fun _ => None;
  getResourceConfigHistory := fun _ => (JNull, JRec [("configurationItems", JArr [])]);
  putEvaluations := fun _ => (JStr "ServiceUnavailable", JNull)
|}.

(** The tracking service answers without a list of failed evaluations. *)
Definition silent_answer : Runtime := {|
  JSON_parse := Demo.parse;
  JSON_stringify := Demo.stringify;
  ToNumber := fun _ => None;
  getResourceConfigHistory := fun _ => (JNull, JRec [("configurationItems", JArr [])]);
  putEvaluations := fun _ => (JNull, JRec [])
|}.

End Tracking.

(** [v == null]: [null] or [undefined], the two values no property can be
    read from. *)
Definition nullish (v : value) : bool :=
  match v with
  | JUndefined | JNull => true
  | _ => false
  end.

(** The two ways the script itself signals a failure: the callback is told
    of an error, or an [Error] is thrown ([checkDefined], line 57). *)
Definition told_of_error (m : M unit) : Prop :=
  exists err data, In (err, data) (callbacks (trace m)) /\ truthy err = true.

Definition raises_own_error (m : M unit) : Prop :=
  exists msg, result m = Throw (Error msg).


Module EmptyVerdict.

(** A rule that assesses no resource and returns the empty list. *)
Definition rule (configurationItem ruleParameters : value) : outcome value :=
  Ret (JArr []).


End EmptyVerdict.

Module Bare.

(** A change notification for a discovered instance whose item carries no
    configuration. *)
Definition item : value :=
  JRec [("resourceType", JStr "AWS::EC2::Instance");
        ("resourceId", JStr "i-0003");
        ("configurationItemStatus", JStr "ResourceDiscovered");
        ("configurationItemCaptureTime", JStr "2017-01-03T00:00:00.000Z")].

End Bare.

Module Deleted.

(** A change notification for an instance that has been deleted. *)
Definition item : value :=
  JRec [("resourceType", JStr "AWS::EC2::Instance");
        ("resourceId", JStr "i-0001");
        ("configurationItemStatus", JStr "ResourceDeleted");
        ("configurationItemCaptureTime", JStr "2017-01-02T00:00:00.000Z");
        ("configuration", JNull)].

Definition change : value :=
  JRec [("messageType", JStr "ConfigurationItemChangeNotification");
        ("configurationItem", item)].

Definition parse (v : value) : outcome value :=
  match v with
  | JStr s => if (s =? "deleted")%string then Ret change else Demo.parse v
  | _ => Demo.parse v
  end.

Definition runtime : Runtime := {|
  JSON_parse := parse;
  JSON_stringify := Demo.stringify;
  ToNumber := fun _ => None;
  getResourceConfigHistory := fun _ => (JNull, JRec [("configurationItems", JArr [])]);
  putEvaluations := fun _ => (JNull, JRec [("FailedEvaluations", JArr [])])
|}.

(** A rule that always raises. *)
Definition broken_rule (configurationItem ruleParameters : value) : outcome value :=
  Throw (Error "rule failed").

(** A rule that returns nothing. *)
Definition mute_rule (configurationItem ruleParameters : value) : outcome value :=
  Ret JUndefined.

End Deleted.

(** * Properties *)

(** ** Basic facts about values *)

Lemma strict_eq_JStr (v : value) (s : string) :
  strict_eq v (JStr s) = true <-> v = JStr s.
Proof.
  destruct v; simpl; try (split; [discriminate | intros H; discriminate H]).
  rewrite String.eqb_eq. split; [intros -> | intros [= ->]]; reflexivity.
Qed.

Lemma strict_eq_JBool (v : value) (b : bool) :
  strict_eq v (JBool b) = true <-> v = JBool b.
Proof.
  destruct v; simpl; try (split; [discriminate | intros H; discriminate H]).
  rewrite Bool.eqb_true_iff. split; [intros -> | intros [= ->]]; reflexivity.
Qed.

(** Reading a property of a defined value never raises. *)
Lemma get_truthy (v : value) (k : string) :
  truthy v = true -> exists x, get v k = Ret x.
Proof.
  destruct v as [| | b | n | s | c props]; simpl; try discriminate; eauto.
  - destruct (k =? "length")%string; eauto.
  - destruct c; try destruct (k =? "length")%string; eauto.
Qed.

(** Only an object has a property, other than [length], with a defined
    value. *)
Lemma get_defined_object (v x : value) (k : string) :
  (k =? "length")%string = false ->
  get v k = Ret x -> truthy x = true -> truthy v = true.
Proof.
  intros Hk Hget Hx.
  destruct v as [| | b | n | s | c props]; simpl in *; try discriminate;
    try reflexivity.
  - injection Hget as <-. discriminate.
  - injection Hget as <-. discriminate.
  - rewrite Hk in Hget. injection Hget as <-. discriminate.
Qed.

Lemma checkDefined_truthy (v : value) (name : string) :
  truthy v = true -> checkDefined v name = Ret v.
Proof. unfold checkDefined. intros ->. reflexivity. Qed.

Lemma checkDefined_falsy (v : value) (name : string) :
  truthy v = false ->
  checkDefined v name = Throw (Error ("Error: " ++ name ++ " is not defined")).
Proof. unfold checkDefined. intros ->. reflexivity. Qed.

(** ** The applicability filter *)

Lemma in_scope_status_test (status : value) :
  strict_eq status (JStr "OK") || strict_eq status (JStr "ResourceDiscovered") = true
  <-> in_scope_status status.
Proof.
  unfold in_scope_status.
  rewrite Bool.orb_true_iff, !strict_eq_JStr. reflexivity.
Qed.

(** C1.  For every configuration item and event (both defined),
    [isApplicable] returns a boolean, and that boolean is [true] exactly when
    the item's [configurationItemStatus] is ['OK'] or ['ResourceDiscovered']
    and the event's [eventLeftScope] is the boolean [false]; in every other
    combination it is [false]. *)
Theorem isApplicable_iff (configurationItem event : value) :
  truthy configurationItem = true ->
  truthy event = true ->
  exists (status eventLeftScope : value) (b : bool),
    get configurationItem "configurationItemStatus" = Ret status /\
    get event "eventLeftScope" = Ret eventLeftScope /\
    isApplicable configurationItem event = Ret b /\
    (b = true <-> in_scope_status status /\ eventLeftScope = JBool false) /\
    (b = false <-> ~ (in_scope_status status /\ eventLeftScope = JBool false)).
Proof.
  intros Hc He.
  destruct (get_truthy configurationItem "configurationItemStatus" Hc) as [status Hs].
  destruct (get_truthy event "eventLeftScope" He) as [left Hl].
  exists status, left.
  eexists. split; [exact Hs | split; [exact Hl | ]].
  unfold isApplicable.
  rewrite (checkDefined_truthy _ _ Hc), (checkDefined_truthy _ _ He), Hs, Hl.
  simpl. split; [reflexivity | ].
  assert (Hiff : (strict_eq status (JStr "OK") || strict_eq status (JStr "ResourceDiscovered"))
                 && strict_eq left (JBool false) = true
                 <-> in_scope_status status /\ left = JBool false).
  { rewrite Bool.andb_true_iff, in_scope_status_test, strict_eq_JBool. reflexivity. }
  split; [exact Hiff | ].
  rewrite <- Hiff. symmetry. apply Bool.not_true_iff_false.
Qed.

Lemma isApplicable_iff_witness :
  exists (status eventLeftScope : value) (b : bool),
    get Demo.item "configurationItemStatus" = Ret status /\
    get (Demo.event_of "change") "eventLeftScope" = Ret eventLeftScope /\
    isApplicable Demo.item (Demo.event_of "change") = Ret b /\
    (b = true <-> in_scope_status status /\ eventLeftScope = JBool false) /\
    (b = false <-> ~ (in_scope_status status /\ eventLeftScope = JBool false)).
Proof.
  apply (isApplicable_iff Demo.item (Demo.event_of "change")); reflexivity.
Defined.

(** The filter answers [true] only for a defined item and event, so the
    positive half needs no assumption. *)
Lemma isApplicable_true (configurationItem event : value) :
  isApplicable configurationItem event = Ret true <->
  (exists status, get configurationItem "configurationItemStatus" = Ret status /\
                  in_scope_status status) /\
  get event "eventLeftScope" = Ret (JBool false).
Proof.
  split.
  - unfold isApplicable, checkDefined.
    destruct (truthy configurationItem) eqn:Hc; simpl; [ | discriminate].
    destruct (truthy event) eqn:He; simpl; [ | discriminate].
    destruct (get_truthy configurationItem "configurationItemStatus" Hc) as [status Hs].
    destruct (get_truthy event "eventLeftScope" He) as [left Hl].
    rewrite Hs, Hl. simpl. intros [= H].
    apply Bool.andb_true_iff in H. destruct H as [H1 H2].
    apply in_scope_status_test in H1. apply strict_eq_JBool in H2. subst left.
    split; [exists status | ]; auto.
  - intros [[status [Hs Hin]] Hl].
    assert (Hc : truthy configurationItem = true).
    { apply (get_defined_object configurationItem status "configurationItemStatus" eq_refl Hs).
      destruct Hin as [-> | ->]; reflexivity. }
    assert (He : truthy event = true).
    { destruct event as [| | b | n | s | c props]; simpl in *; try discriminate;
        reflexivity. }
    unfold isApplicable.
    rewrite (checkDefined_truthy _ _ Hc), (checkDefined_truthy _ _ He), Hs, Hl. simpl.
    apply in_scope_status_test in Hin. rewrite Hin. reflexivity.
Qed.

(** ** The example rule *)

Lemma get_defined (v : value) (k : string) :
  nullish v = false -> exists x, get v k = Ret x.
Proof.
  destruct v as [| | b | n | s | c props]; simpl; try discriminate; eauto.
  - destruct (k =? "length")%string; eauto.
  - destruct c; try destruct (k =? "length")%string; eauto.
Qed.

(** C10, as stated, fails: an EC2 instance whose item carries no
    configuration is neither ['COMPLIANT'] nor ['NON_COMPLIANT'];
    [evaluateCompliance] raises on line 36. *)
Lemma evaluateCompliance_raises_without_configuration :
  get Bare.item "resourceType" = Ret (JStr "AWS::EC2::Instance") /\
  get Bare.item "configuration" = Ret JUndefined /\
  evaluateCompliance Bare.item Demo.params
  = Throw (TypeError "Cannot read property 'instanceType' of undefined") /\
  evaluateCompliance Bare.item Demo.params <> Ret (JStr "NON_COMPLIANT") /\
  evaluateCompliance Bare.item Demo.params <> Ret (JStr "COMPLIANT").
Proof. repeat split; discriminate. Qed.

(** C10, amended.  For every configuration item and parameter mapping
    (neither [null] nor [undefined]), [evaluateCompliance] returns
    ['NOT_APPLICABLE'] when the item's [resourceType] is not
    ['AWS::EC2::Instance']; otherwise, when the item's [configuration] is
    neither [null] nor absent, it returns ['COMPLIANT'] when the parameters'
    [desiredInstanceType] is [===] to the item's [configuration.instanceType]
    and ['NON_COMPLIANT'] in every other case. *)
Theorem evaluateCompliance_cases (configurationItem ruleParameters : value) :
  nullish configurationItem = false ->
  nullish ruleParameters = false ->
  exists resourceType configuration desired : value,
    get configurationItem "resourceType" = Ret resourceType /\
    get configurationItem "configuration" = Ret configuration /\
    get ruleParameters "desiredInstanceType" = Ret desired /\
    (resourceType <> JStr "AWS::EC2::Instance" ->
     evaluateCompliance configurationItem ruleParameters = Ret (JStr "NOT_APPLICABLE")) /\
    (resourceType = JStr "AWS::EC2::Instance" ->
     nullish configuration = false ->
     exists instanceType : value,
       get configuration "instanceType" = Ret instanceType /\
       (strict_eq desired instanceType = true ->
        evaluateCompliance configurationItem ruleParameters = Ret (JStr "COMPLIANT")) /\
       (strict_eq desired instanceType = false ->
        evaluateCompliance configurationItem ruleParameters = Ret (JStr "NON_COMPLIANT"))).
Proof.
  intros Hci Hrp.
  destruct (get_defined configurationItem "resourceType" Hci) as [resourceType Hrt].
  destruct (get_defined configurationItem "configuration" Hci) as [configuration Hc].
  destruct (get_defined ruleParameters "desiredInstanceType" Hrp) as [desired Hd].
  exists resourceType, configuration, desired.
  split; [exact Hrt | split; [exact Hc | split; [exact Hd | ]]].
  unfold evaluateCompliance. rewrite Hrt. cbn [obind]. split.
  - intros Hne.
    destruct (strict_eq resourceType (JStr "AWS::EC2::Instance")) eqn:E.
    + apply strict_eq_JStr in E. contradiction.
    + reflexivity.
  - intros -> Hconf.
    destruct (get_defined configuration "instanceType" Hconf) as [instanceType Hi].
    exists instanceType. split; [exact Hi | ].
    cbn [strict_eq]. rewrite String.eqb_refl. cbn [negb].
    rewrite Hd, Hc. cbn [obind]. rewrite Hi. cbn [obind].
    split; intros ->; reflexivity.
Qed.

Lemma evaluateCompliance_cases_witness :
  exists resourceType configuration desired : value,
    get Demo.item "resourceType" = Ret resourceType /\
    get Demo.item "configuration" = Ret configuration /\
    get Demo.params "desiredInstanceType" = Ret desired /\
    (resourceType <> JStr "AWS::EC2::Instance" ->
     evaluateCompliance Demo.item Demo.params = Ret (JStr "NOT_APPLICABLE")) /\
    (resourceType = JStr "AWS::EC2::Instance" ->
     nullish configuration = false ->
     exists instanceType : value,
       get configuration "instanceType" = Ret instanceType /\
       (strict_eq desired instanceType = true ->
        evaluateCompliance Demo.item Demo.params = Ret (JStr "COMPLIANT")) /\
       (strict_eq desired instanceType = false ->
        evaluateCompliance Demo.item Demo.params = Ret (JStr "NON_COMPLIANT"))).
Proof.
  apply (evaluateCompliance_cases Demo.item Demo.params); reflexivity.
Defined.

(** The three outcomes, on an instance of the desired type, one of another
    type, and a bucket. *)
Example evaluateCompliance_examples :
  evaluateCompliance Demo.item Demo.params = Ret (JStr "COMPLIANT") /\
  evaluateCompliance Demo.item (JRec [("desiredInstanceType", JStr "m4.large")])
    = Ret (JStr "NON_COMPLIANT") /\
  evaluateCompliance (JRec [("resourceType", JStr "AWS::S3::Bucket")]) Demo.params
    = Ret (JStr "NOT_APPLICABLE").
Proof. repeat split. Qed.

(** ** Reasoning about computations *)

Lemma bind_lift_Ret {A B} (a : A) (f : A -> M B) : bind (lift (Ret a)) f = f a.
Proof. unfold bind, lift. destruct (f a). reflexivity. Qed.

Lemma bind_lift_Throw {A B} (e : exn) (f : A -> M B) :
  bind (lift (Throw e)) f = ([], Throw e).
Proof. reflexivity. Qed.

Lemma bind_ret {A B} (a : A) (f : A -> M B) : bind (ret a) f = f a.
Proof. apply bind_lift_Ret. Qed.

Lemma bind_emit {B} (e : effect) (f : unit -> M B) :
  bind (emit e) f = (e :: trace (f tt), result (f tt)).
Proof. unfold bind, emit. destruct (f tt). reflexivity. Qed.

Lemma trace_bind {A B} (m : M A) (f : A -> M B) :
  trace (bind m f) =
  (trace m ++ match result m with Ret a => trace (f a) | Throw _ => [] end)%list.
Proof.
  destruct m as [t [a | e]]; simpl.
  - destruct (f a). reflexivity.
  - rewrite app_nil_r. reflexivity.
Qed.

Lemma result_bind {A B} (m : M A) (f : A -> M B) :
  result (bind m f) =
  match result m with Ret a => result (f a) | Throw e => Throw e end.
Proof.
  destruct m as [t [a | e]]; simpl; [destruct (f a) | ]; reflexivity.
Qed.

Lemma result_bind_Ret {A B} (m : M A) (f : A -> M B) (b : B) :
  result (bind m f) = Ret b ->
  exists a, result m = Ret a /\ result (f a) = Ret b.
Proof.
  rewrite result_bind. destruct (result m) as [a | e]; [eauto | discriminate].
Qed.

Lemma submissions_app (t u : list effect) :
  submissions (t ++ u) = (submissions t ++ submissions u)%list.
Proof. apply flat_map_app. Qed.

Lemma quiet_lift {A} (r : outcome A) : quiet (lift r).
Proof. reflexivity. Qed.

Lemma quiet_ret {A} (a : A) : quiet (ret a).
Proof. reflexivity. Qed.

Lemma quiet_callback (err data : value) : quiet (callback err data).
Proof. reflexivity. Qed.

Lemma quiet_when_callback (c : bool) (err data : value) :
  quiet (when c (callback err data)).
Proof. destruct c; reflexivity. Qed.

Lemma quiet_bind {A B} (m : M A) (f : A -> M B) :
  quiet m -> (forall a, result m = Ret a -> quiet (f a)) -> quiet (bind m f).
Proof.
  unfold quiet. intros Hm Hf. rewrite trace_bind, submissions_app, Hm. simpl.
  destruct (result m) as [a | e]; [apply Hf; reflexivity | reflexivity].
Qed.

Lemma quiet_emit (e : effect) :
  (forall request, e <> PutEvaluations request) -> quiet (emit e).
Proof.
  intros Hne. destruct e; try reflexivity. destruct (Hne request eq_refl).
Qed.

Create HintDb quiet.
#[local] Hint Resolve quiet_lift quiet_ret quiet_callback quiet_when_callback : quiet.
#[local] Hint Extern 2 (quiet (emit _)) => (apply quiet_emit; discriminate) : quiet.

(** One statement further in a computation that has sent nothing so far. *)
Ltac quiet_step := apply quiet_bind; [auto with quiet | intros ? _].

(** ** Assembling the request *)

(** C5.  For every string-like verdict [V] and every resolved configuration
    item, the assembled request holds exactly one evaluation; its
    [ComplianceType] is [V] and its resource type, resource id and ordering
    timestamp are the item's [resourceType], [resourceId] and
    [configurationItemCaptureTime]. *)
Theorem single_label_one_record (V configurationItem : value) :
  isString V = true ->
  truthy configurationItem = true ->
  exists resourceType resourceId captureTime : value,
    get configurationItem "resourceType" = Ret resourceType /\
    get configurationItem "resourceId" = Ret resourceId /\
    get configurationItem "configurationItemCaptureTime" = Ret captureTime /\
    assembleRequest V configurationItem =
      Ret (JRec [("Evaluations",
                  JArr [JRec [("ComplianceResourceType", resourceType);
                              ("ComplianceResourceId", resourceId);
                              ("ComplianceType", V);
                              ("OrderingTimestamp", captureTime)]])]).
Proof.
  intros HV Hc.
  destruct (get_truthy configurationItem "resourceType" Hc) as [resourceType Ht].
  destruct (get_truthy configurationItem "resourceId" Hc) as [resourceId Hi].
  destruct (get_truthy configurationItem "configurationItemCaptureTime" Hc)
    as [captureTime Hcap].
  exists resourceType, resourceId, captureTime.
  repeat split; try assumption.
  unfold assembleRequest, evaluation. rewrite HV, Ht, Hi, Hcap. reflexivity.
Qed.

Lemma single_label_one_record_witness :
  exists resourceType resourceId captureTime : value,
    get Demo.item "resourceType" = Ret resourceType /\
    get Demo.item "resourceId" = Ret resourceId /\
    get Demo.item "configurationItemCaptureTime" = Ret captureTime /\
    assembleRequest (JStr "COMPLIANT") Demo.item =
      Ret (JRec [("Evaluations",
                  JArr [JRec [("ComplianceResourceType", resourceType);
                              ("ComplianceResourceId", resourceId);
                              ("ComplianceType", JStr "COMPLIANT");
                              ("OrderingTimestamp", captureTime)]])]).
Proof.
  apply (single_label_one_record (JStr "COMPLIANT") Demo.item); reflexivity.
Defined.

(** A verdict that is neither a string nor a list is reported as
    ['NOT_APPLICABLE']. *)
Lemma other_verdict_not_applicable (compliance configurationItem : value) :
  isString compliance = false ->
  isArray compliance = false ->
  assembleRequest compliance configurationItem =
  assembleRequest (JStr "NOT_APPLICABLE") configurationItem.
Proof.
  intros Hs Ha. unfold assembleRequest. rewrite Hs, Ha. reflexivity.
Qed.

(** A list of evaluations is never assembled into a request. *)
Lemma list_verdict_raises (compliance configurationItem : value) :
  isArray compliance = true ->
  assembleRequest compliance configurationItem
  = Throw (ReferenceError "fields is not defined").
Proof.
  intros Ha. unfold assembleRequest.
  destruct compliance as [| | b | n | s | [| xs | s | t] props]; try discriminate.
  reflexivity.
Qed.

(** Whatever is assembled holds exactly one evaluation. *)
Lemma assembleRequest_one_record (compliance configurationItem request : value) :
  assembleRequest compliance configurationItem = Ret request ->
  exists e, request = JRec [("Evaluations", JArr [e])].
Proof.
  unfold assembleRequest.
  destruct (isString compliance).
  - destruct (evaluation configurationItem compliance) as [e | x]; simpl;
      [intros [= <-]; eauto | discriminate].
  - destruct (isArray compliance); [discriminate | ].
    destruct (evaluation configurationItem (JStr "NOT_APPLICABLE")) as [e | x]; simpl;
      [intros [= <-]; eauto | discriminate].
Qed.

(** C2.  On a change notification whose rule returns a list of two
    well-formed evaluations, the handler raises a ReferenceError while
    assembling the request: nothing is sent to the tracking service and the
    callback is never invoked. *)
Theorem list_verdict_not_submitted :
  isArray ListVerdict.verdict = true /\
  result (lambda_handler Demo.runtime ListVerdict.rule (Demo.event_of "change"))
    = Throw (ReferenceError "fields is not defined") /\
  submissions (trace (lambda_handler Demo.runtime ListVerdict.rule (Demo.event_of "change")))
    = [] /\
  callbacks (trace (lambda_handler Demo.runtime ListVerdict.rule (Demo.event_of "change")))
    = [].
Proof. repeat split. Qed.

(** ** Reporting the evaluations *)

Lemma lookup_update_same (k : string) (x : value) (props : list (string * value)) :
  lookup k (update k x props) = Some x.
Proof.
  induction props as [| [k' v'] rest IH]; simpl.
  - rewrite String.eqb_refl. reflexivity.
  - destruct (k =? k')%string eqn:E; simpl.
    + rewrite String.eqb_refl. reflexivity.
    + rewrite E. exact IH.
Qed.

Lemma lookup_update_other (k k' : string) (x : value) (props : list (string * value)) :
  (k =? k')%string = false ->
  lookup k (update k' x props) = lookup k props.
Proof.
  intros Hne. induction props as [| [k0 v0] rest IH]; simpl.
  - rewrite Hne. reflexivity.
  - destruct (k' =? k0)%string eqn:E; simpl.
    + apply String.eqb_eq in E. subst k0. rewrite Hne. reflexivity.
    + destruct (k =? k0)%string; [reflexivity | exact IH].
Qed.

(** Assigning one property leaves the others as they are. *)
Lemma get_set_other (v v' x : value) (k k' : string) :
  (k =? k')%string = false ->
  set v k' x = Ret v' ->
  get v' k = get v k.
Proof.
  intros Hne Hset.
  destruct v as [| | b | n | s | c props]; simpl in Hset; try discriminate.
  injection Hset as <-. simpl.
  rewrite (lookup_update_other k k' x props Hne). reflexivity.
Qed.

Lemma get_set_same (c : objclass) (props : list (string * value)) (x : value) (k : string) :
  (k =? "length")%string = false ->
  get (JObj c (update k x props)) k = Ret x.
Proof.
  intros Hk. simpl. rewrite Hk, lookup_update_same. destruct c; reflexivity.
Qed.

Lemma positive_length (xs : list value) (rt : Runtime) :
  positive rt (JNum (Z.of_nat (List.length xs))) = negb (Nat.eqb (List.length xs) 0).
Proof.
  unfold positive. simpl. destruct xs; simpl; [reflexivity | ].
  apply Z.ltb_lt. lia.
Qed.

(** C4.  When the call to the tracking service comes back without an error:
    if the answer lists one or more failed evaluations, the invocation ends
    in a failure carrying the serialized answer; if it lists none, the
    invocation ends in a success carrying the answer. *)
Theorem reportEvaluations_verdict (rt : Runtime)
    (event putEvaluationsRequest request error data : value)
    (failed : list value) (props : list (string * value)) :
  (resultToken <~ get event "resultToken" ;;
   set putEvaluationsRequest "ResultToken" resultToken) = Ret request ->
  putEvaluations rt request = (error, data) ->
  truthy error = false ->
  get data "FailedEvaluations" = Ret (JObj (OArray failed) props) ->
  (failed <> [] ->
   reportEvaluations rt event putEvaluationsRequest
   = ([PutEvaluations request; Callback (JSON_stringify rt data) JNull], Ret tt)) /\
  (failed = [] ->
   reportEvaluations rt event putEvaluationsRequest
   = ([PutEvaluations request; Callback JNull data], Ret tt)).
Proof.
  intros Hreq Hput Herr Hfailed.
  unfold reportEvaluations.
  rewrite Hreq, bind_lift_Ret, bind_emit, Hput, Herr, Hfailed.
  cbn [obind get String.eqb Ascii.eqb Bool.eqb]. rewrite bind_lift_Ret, positive_length.
  split.
  - intros Hne. destruct failed; [contradiction | reflexivity].
  - intros ->. reflexivity.
Qed.

Lemma reportEvaluations_verdict_witness :
  reportEvaluations Demo.rejecting (Demo.event_of "change") (JRec [])
  = ([PutEvaluations (JRec [("ResultToken", JStr "token-1")]);
      Callback (JStr "failures") JNull], Ret tt) /\
  reportEvaluations Demo.runtime (Demo.event_of "change") (JRec [])
  = ([PutEvaluations (JRec [("ResultToken", JStr "token-1")]);
      Callback JNull (JRec [("FailedEvaluations", JArr [])])], Ret tt).
Proof.
  split.
  - refine (proj1 (reportEvaluations_verdict Demo.rejecting (Demo.event_of "change")
                     (JRec []) (JRec [("ResultToken", JStr "token-1")]) JNull _
                     [JRec [("ComplianceResourceId", JStr "i-0001")]] []
                     eq_refl eq_refl eq_refl eq_refl) _).
    discriminate.
  - exact (proj2 (reportEvaluations_verdict Demo.runtime (Demo.event_of "change")
                    (JRec []) (JRec [("ResultToken", JStr "token-1")]) JNull _
                    [] [] eq_refl eq_refl eq_refl eq_refl) eq_refl).
Defined.

(** Every request object is sent, once, with the token of the event. *)
Lemma reportEvaluations_submits (rt : Runtime) (event : value)
    (c : objclass) (props : list (string * value)) (resultToken : value) :
  get event "resultToken" = Ret resultToken ->
  submissions (trace (reportEvaluations rt event (JObj c props)))
  = [JObj c (update "ResultToken" resultToken props)].
Proof.
  intros Htok. unfold reportEvaluations. rewrite Htok.
  cbn [obind set]. rewrite bind_lift_Ret, bind_emit.
  destruct (putEvaluations rt _) as [error data].
  cbn [trace fst submissions flat_map app]. f_equal.
  destruct (truthy error); [reflexivity | ].
  apply quiet_bind; [apply quiet_lift | ].
  intros failed _. destruct (positive rt failed); reflexivity.
Qed.

(** The reporting step does not look at the batch: handed a request with
    no evaluation, it sends it like any other. *)
Example reportEvaluations_ignores_batch :
  reportEvaluations Demo.runtime (Demo.event_of "change") (JRec [("Evaluations", JArr [])])
  = ([PutEvaluations (JRec [("Evaluations", JArr []); ("ResultToken", JStr "token-1")]);
      Callback JNull (JRec [("FailedEvaluations", JArr [])])],
     Ret tt).
Proof. reflexivity. Qed.

(** ** Resolving the configuration item *)

Lemma messageType_defined (invokingEvent messageType : value) :
  get invokingEvent "messageType" = Ret messageType ->
  truthy messageType = true ->
  checkDefined invokingEvent "invokingEvent" = Ret invokingEvent.
Proof.
  intros Hget Ht. apply checkDefined_truthy.
  exact (get_defined_object invokingEvent messageType "messageType" eq_refl Hget Ht).
Qed.

(** C7.  When the field a notification needs is absent (or otherwise not
    defined), resolution raises at once an error that names the field, and
    the callback is not invoked: the [configurationItemSummary] of an
    oversized notification, the [configurationItem] of a change
    notification. *)
Theorem missing_field_fails_fast (rt : Runtime) (invokingEvent messageType : value)
    (k : value -> value -> M unit) :
  get invokingEvent "messageType" = Ret messageType ->
  truthy messageType = true ->
  (messageType = oversizedType ->
   forall summary,
     get invokingEvent "configurationItemSummary" = Ret summary ->
     truthy summary = false ->
     getConfigurationItem rt invokingEvent k
     = ([], Throw (Error "Error: configurationItemSummary is not defined"))) /\
  (messageType <> oversizedType ->
   messageType <> scheduledType ->
   forall item,
     get invokingEvent "configurationItem" = Ret item ->
     truthy item = false ->
     getConfigurationItem rt invokingEvent k
     = ([], Throw (Error "Error: configurationItem is not defined"))).
Proof.
  intros Hmt Ht. unfold getConfigurationItem.
  rewrite (messageType_defined _ _ Hmt Ht), bind_lift_Ret, Hmt.
  unfold isOverSizedChangeNotification, isScheduledNotification.
  cbn [obind]. rewrite (checkDefined_truthy _ "messageType" Ht). cbn [obind].
  split.
  - intros -> summary Hs Hfalsy. rewrite bind_lift_Ret.
    cbn [strict_eq oversizedType]. rewrite String.eqb_refl, Hs. cbn [obind].
    rewrite (checkDefined_falsy _ "configurationItemSummary" Hfalsy). reflexivity.
  - intros Hno Hns item Hi Hfalsy. rewrite bind_lift_Ret.
    destruct (strict_eq messageType
                (JStr "OversizedConfigurationItemChangeNotification")) eqn:Eo.
    { apply strict_eq_JStr in Eo. contradiction. }
    rewrite bind_lift_Ret.
    destruct (strict_eq messageType (JStr "ScheduledNotification")) eqn:Es.
    { apply strict_eq_JStr in Es. contradiction. }
    rewrite Hi, bind_lift_Ret.
    rewrite (checkDefined_falsy _ "configurationItem" Hfalsy). reflexivity.
Qed.

Lemma missing_field_fails_fast_witness :
  getConfigurationItem Demo.runtime Demo.oversized_without_summary callback
  = ([], Throw (Error "Error: configurationItemSummary is not defined")) /\
  getConfigurationItem Demo.runtime Demo.change_without_item callback
  = ([], Throw (Error "Error: configurationItem is not defined")).
Proof.
  split.
  - exact (proj1 (missing_field_fails_fast Demo.runtime Demo.oversized_without_summary
                    oversizedType callback eq_refl eq_refl)
             eq_refl JUndefined eq_refl eq_refl).
  - refine (proj2 (missing_field_fails_fast Demo.runtime Demo.change_without_item
                     (JStr "ConfigurationItemChangeNotification") callback eq_refl eq_refl)
              _ _ JUndefined eq_refl eq_refl); discriminate.
Defined.

(** ** The handler, case by case *)

(** Without a configuration item the handler tells the callback that
    scheduled notifications are not supported, and then falls through to
    [isApplicable], which raises. *)
Lemma onConfigurationItem_missing (rt : Runtime)
    (evaluate : value -> value -> outcome value) (event invokingEvent err item : value) :
  truthy item = false ->
  onConfigurationItem rt evaluate event invokingEvent err item
  = ((if truthy err then [Callback err JUndefined] else [])
       ++ [Callback (JStr scheduled_message) JUndefined],
     Throw (Error "Error: configurationItem is not defined"))%list.
Proof.
  intros Hfalsy. unfold onConfigurationItem, isApplicable.
  rewrite Hfalsy, (checkDefined_falsy _ "configurationItem" Hfalsy).
  destruct (truthy err); reflexivity.
Qed.

(** C6.  For every notification whose [messageType] is
    ['ScheduledNotification'], the handler tells the callback that scheduled
    notifications are not supported and ends in an error; nothing is sent to
    the tracking service. *)
Theorem scheduled_notification_unsupported (rt : Runtime)
    (evaluate : value -> value -> outcome value)
    (event invokingEvent ruleParameters : value) :
  truthy event = true ->
  (s <~ get event "invokingEvent" ;; JSON_parse rt s) = Ret invokingEvent ->
  (s <~ get event "ruleParameters" ;; JSON_parse rt s) = Ret ruleParameters ->
  get invokingEvent "messageType" = Ret scheduledType ->
  lambda_handler rt evaluate event
  = ([Callback (JStr scheduled_message) JUndefined],
     Throw (Error "Error: configurationItem is not defined")) /\
  submissions (trace (lambda_handler rt evaluate event)) = [].
Proof.
  intros He Hie Hrp Hmt.
  assert (Hrun : lambda_handler rt evaluate event
                 = ([Callback (JStr scheduled_message) JUndefined],
                    Throw (Error "Error: configurationItem is not defined"))).
  { unfold lambda_handler.
    rewrite (checkDefined_truthy _ "event" He), bind_lift_Ret.
    rewrite Hie, bind_lift_Ret, Hrp, bind_lift_Ret.
    unfold getConfigurationItem.
    rewrite (messageType_defined _ _ Hmt eq_refl), bind_lift_Ret, Hmt.
    cbn -[onConfigurationItem].
    rewrite (onConfigurationItem_missing rt evaluate event invokingEvent JNull JNull eq_refl).
    reflexivity. }
  split; [exact Hrun | rewrite Hrun; reflexivity].
Qed.

Lemma scheduled_notification_unsupported_witness :
  lambda_handler Demo.runtime evaluateCompliance (Demo.event_of "scheduled")
  = ([Callback (JStr scheduled_message) JUndefined],
     Throw (Error "Error: configurationItem is not defined")) /\
  submissions (trace (lambda_handler Demo.runtime evaluateCompliance
                        (Demo.event_of "scheduled"))) = [].
Proof.
  apply (scheduled_notification_unsupported Demo.runtime evaluateCompliance
           (Demo.event_of "scheduled") Demo.scheduled Demo.params); reflexivity.
Defined.

(** C8, as stated, fails: with an empty list from the history service the
    run ends in a TypeError, which is neither an error the callback is told
    of (the lookup came back without one) nor an [Error] the script throws
    itself. *)
Lemma empty_history_is_no_lookup_error :
  getResourceConfigHistory Demo.runtime
    (historyRequest (JStr "AWS::EC2::Instance") (JStr "i-0001")
       (JStr "2017-01-01T00:00:00.000Z"))
  = (JNull, JRec [("configurationItems", JArr [])]) /\
  result (lambda_handler Demo.runtime evaluateCompliance (Demo.event_of "oversized"))
  = Throw (TypeError "Cannot read property 'accountId' of undefined") /\
  ~ told_of_error (lambda_handler Demo.runtime evaluateCompliance
                     (Demo.event_of "oversized")) /\
  ~ raises_own_error (lambda_handler Demo.runtime evaluateCompliance
                        (Demo.event_of "oversized")).
Proof.
  split; [reflexivity | split; [reflexivity | split]].
  - intros (err & data & Hin & _). exact Hin.
  - intros (msg & H). discriminate H.
Qed.

(** C8, amended.  For every oversized notification whose history lookup
    comes back without an error and with an empty list of configuration
    items, the handler raises a TypeError (reading [accountId] of
    [undefined]) while the absent item is converted; the callback is not
    invoked and nothing is sent to the tracking service. *)
Theorem empty_history_fails (rt : Runtime)
    (evaluate : value -> value -> outcome value)
    (event invokingEvent ruleParameters summary : value)
    (resourceType resourceId captureTime err data : value)
    (props : list (string * value)) :
  truthy event = true ->
  (s <~ get event "invokingEvent" ;; JSON_parse rt s) = Ret invokingEvent ->
  (s <~ get event "ruleParameters" ;; JSON_parse rt s) = Ret ruleParameters ->
  get invokingEvent "messageType" = Ret oversizedType ->
  get invokingEvent "configurationItemSummary" = Ret summary ->
  truthy summary = true ->
  get summary "resourceType" = Ret resourceType ->
  get summary "resourceId" = Ret resourceId ->
  get summary "configurationItemCaptureTime" = Ret captureTime ->
  getResourceConfigHistory rt (historyRequest resourceType resourceId captureTime)
  = (err, data) ->
  truthy err = false ->
  get data "configurationItems" = Ret (JObj (OArray []) props) ->
  lambda_handler rt evaluate event
  = ([GetResourceConfigHistory (historyRequest resourceType resourceId captureTime)],
     Throw (TypeError "Cannot read property 'accountId' of undefined")) /\
  submissions (trace (lambda_handler rt evaluate event)) = [] /\
  callbacks (trace (lambda_handler rt evaluate event)) = [].
Proof.
  intros He Hie Hrp Hmt Hsum Hst Hrt Hrid Hcap Hhist Herr Hitems.
  assert (Hrun : lambda_handler rt evaluate event
                 = ([GetResourceConfigHistory
                       (historyRequest resourceType resourceId captureTime)],
                    Throw (TypeError "Cannot read property 'accountId' of undefined"))).
  { unfold lambda_handler.
    rewrite (checkDefined_truthy _ "event" He), bind_lift_Ret.
    rewrite Hie, bind_lift_Ret, Hrp, bind_lift_Ret.
    unfold getConfigurationItem.
    rewrite (messageType_defined _ _ Hmt eq_refl), bind_lift_Ret, Hmt.
    cbn [obind]. change (isOverSizedChangeNotification oversizedType) with (Ret true).
    rewrite bind_lift_Ret, Hsum. cbn [obind].
    rewrite (checkDefined_truthy _ "configurationItemSummary" Hst), bind_lift_Ret.
    rewrite Hrt, bind_lift_Ret, Hrid, bind_lift_Ret, Hcap, bind_lift_Ret.
    unfold getConfiguration. cbv zeta.
    rewrite bind_emit, Hhist, Herr.
    cbn [when]. rewrite bind_ret, Hitems.
    reflexivity. }
  rewrite Hrun. repeat split.
Qed.

Lemma empty_history_fails_witness :
  lambda_handler Demo.runtime evaluateCompliance (Demo.event_of "oversized")
  = ([GetResourceConfigHistory
        (historyRequest (JStr "AWS::EC2::Instance") (JStr "i-0001")
           (JStr "2017-01-01T00:00:00.000Z"))],
     Throw (TypeError "Cannot read property 'accountId' of undefined")) /\
  submissions (trace (lambda_handler Demo.runtime evaluateCompliance
                        (Demo.event_of "oversized"))) = [] /\
  callbacks (trace (lambda_handler Demo.runtime evaluateCompliance
                      (Demo.event_of "oversized"))) = [].
Proof.
  apply (empty_history_fails Demo.runtime evaluateCompliance
           (Demo.event_of "oversized") Demo.oversized Demo.params Demo.summary
           (JStr "AWS::EC2::Instance") (JStr "i-0001") (JStr "2017-01-01T00:00:00.000Z")
           JNull (JRec [("configurationItems", JArr [])]) []); reflexivity.
Defined.

(** ** The result token *)

Lemma token_once_quiet {A} (resultToken : value) (m : M A) :
  quiet m -> token_once resultToken (trace m).
Proof. intros H. left. exact H. Qed.

Lemma token_once_bind {A B} (resultToken : value) (m : M A) (f : A -> M B) :
  quiet m ->
  (forall a, result m = Ret a -> token_once resultToken (trace (f a))) ->
  token_once resultToken (trace (bind m f)).
Proof.
  unfold quiet, token_once. intros Hm Hf.
  rewrite trace_bind, submissions_app, Hm. simpl.
  destruct (result m) as [a | e]; [apply Hf; reflexivity | left; reflexivity].
Qed.

Ltac token_step := apply token_once_bind; [auto with quiet | intros ? _].

Lemma quiet_bind_Throw {A B} (m : M A) (f : A -> M B) (e : exn) :
  quiet m -> result m = Throw e ->
  quiet (bind m f) /\ result (bind m f) = Throw e.
Proof.
  intros Hq Hr. split.
  - apply quiet_bind; [exact Hq | ]. intros a Ha. rewrite Hr in Ha. discriminate.
  - rewrite result_bind, Hr. reflexivity.
Qed.

Lemma reportEvaluations_token (rt : Runtime) (event request resultToken : value) :
  get event "resultToken" = Ret resultToken ->
  token_once resultToken (trace (reportEvaluations rt event request)).
Proof.
  intros Htok.
  destruct request as [| | b | n | s | c props];
    try (left; unfold reportEvaluations; rewrite Htok; reflexivity).
  right. exists (JObj c (update "ResultToken" resultToken props)). split.
  - apply reportEvaluations_submits. exact Htok.
  - apply get_set_same. reflexivity.
Qed.

Section Token.

Context (rt : Runtime).
Variable evaluate : value -> value -> outcome value.
Variables event invokingEvent resultToken : value.
Hypothesis event_token : get event "resultToken" = Ret resultToken.

(** Running the rule sends nothing, and leaves the token of the event it
    hands on as it is. *)
Lemma evaluation_step_quiet (applicable : bool) (configurationItem : value) :
  let step :=
    if applicable then
      invokingEvent' <- lift (set invokingEvent "configurationItem" configurationItem) ;;
      event' <- lift (set event "invokingEvent" (JSON_stringify rt invokingEvent')) ;;
      rule_handler rt evaluate event'
        (fun err computedCompliance =>
           when (truthy err) (callback err JUndefined) ;;
           ret (event', computedCompliance))
    else ret (event, JStr "NOT_APPLICABLE") in
  quiet step /\
  forall ec, result step = Ret ec -> get (fst ec) "resultToken" = Ret resultToken.
Proof.
  destruct applicable; cbv zeta.
  2: { split; [reflexivity | intros ec [= <-]; exact event_token]. }
  split.
  - unfold rule_handler. do 7 quiet_step. reflexivity.
  - intros ec Hec.
    apply result_bind_Ret in Hec. destruct Hec as [invokingEvent' [_ Hec]].
    apply result_bind_Ret in Hec. destruct Hec as [event' [Hset Hec]].
    unfold rule_handler in Hec.
    apply result_bind_Ret in Hec. destruct Hec as [_ [_ Hec]].
    apply result_bind_Ret in Hec. destruct Hec as [ie [_ Hec]].
    apply result_bind_Ret in Hec. destruct Hec as [ci [_ Hec]].
    apply result_bind_Ret in Hec. destruct Hec as [rp [_ Hec]].
    apply result_bind_Ret in Hec. destruct Hec as [c [_ Hec]].
    injection Hec as <-. cbn [fst].
    rewrite <- event_token.
    apply (get_set_other event event' (JSON_stringify rt invokingEvent')
             "resultToken" "invokingEvent" eq_refl Hset).
Qed.

Lemma onConfigurationItem_token (err configurationItem : value) :
  token_once resultToken
    (trace (onConfigurationItem rt evaluate event invokingEvent err configurationItem)).
Proof.
  unfold onConfigurationItem.
  do 2 token_step. apply token_once_bind; [auto with quiet | intros applicable _].
  destruct (evaluation_step_quiet applicable configurationItem) as [Hq Htok].
  apply token_once_bind; [exact Hq | intros [event' compliance] Hec].
  apply token_once_bind; [apply quiet_lift | intros request _].
  apply reportEvaluations_token. exact (Htok _ Hec).
Qed.

Lemma onConfigurationItem_missing_quiet (err configurationItem : value) :
  truthy configurationItem = false ->
  quiet (onConfigurationItem rt evaluate event invokingEvent err configurationItem) /\
  result (onConfigurationItem rt evaluate event invokingEvent err configurationItem)
  = Throw (Error "Error: configurationItem is not defined").
Proof.
  intros Hfalsy. rewrite (onConfigurationItem_missing _ _ _ _ _ _ Hfalsy).
  split; [ | reflexivity]. destruct (truthy err); reflexivity.
Qed.

(** The function [getConfigurationItem] hands to [getConfiguration]. *)
Lemma conversion_step_token (err apiConfigurationItem : value) :
  let step :=
    when (truthy err) (onConfigurationItem rt evaluate event invokingEvent err JUndefined) ;;
    configurationItem <- lift (convertApiConfiguration rt apiConfigurationItem) ;;
    onConfigurationItem rt evaluate event invokingEvent JNull configurationItem in
  token_once resultToken (trace step) /\
  (truthy err = true -> quiet step /\ exists e, result step = Throw e).
Proof.
  cbv zeta. destruct (truthy err) eqn:Herr; cbn [when].
  - destruct (onConfigurationItem_missing_quiet err JUndefined eq_refl) as [Hq Hr].
    destruct (quiet_bind_Throw _
                (fun _ : unit =>
                   configurationItem <- lift (convertApiConfiguration rt apiConfigurationItem) ;;
                   onConfigurationItem rt evaluate event invokingEvent JNull configurationItem)
                _ Hq Hr) as [Hq' Hr'].
    split; [apply token_once_quiet; exact Hq' | intros _; split; eauto].
  - split; [ | discriminate].
    rewrite bind_ret.
    apply token_once_bind; [apply quiet_lift | intros configurationItem _].
    apply onConfigurationItem_token.
Qed.

Lemma getConfigurationItem_token :
  token_once resultToken
    (trace (getConfigurationItem rt invokingEvent
              (onConfigurationItem rt evaluate event invokingEvent))).
Proof.
  unfold getConfigurationItem.
  token_step. apply token_once_bind; [auto with quiet | intros oversized _].
  destruct oversized.
  - do 4 token_step. unfold getConfiguration. cbv zeta. token_step.
    destruct (getResourceConfigHistory rt _) as [err data].
    destruct (truthy err) eqn:Herr; cbn [when].
    + destruct (conversion_step_token err JNull) as [_ Hthrow].
      destruct (Hthrow Herr) as [Hq [e Hr]].
      rewrite Herr in Hq, Hr. cbn [when] in Hq, Hr.
      apply token_once_quiet.
      exact (proj1 (quiet_bind_Throw _ _ _ Hq Hr)).
    + rewrite bind_ret.
      apply token_once_bind; [apply quiet_lift | intros apiConfigurationItem _].
      exact (proj1 (conversion_step_token JNull apiConfigurationItem)).
  - apply token_once_bind; [apply quiet_lift | intros scheduled _].
    destruct scheduled.
    + apply onConfigurationItem_token.
    + do 3 token_step. apply onConfigurationItem_token.
Qed.

End Token.

(** C9.  Whenever the handler reaches the call to the tracking service, the
    [ResultToken] of the request is the [resultToken] of the event it was
    invoked with, and that request is the only one sent. *)
Theorem result_token_threaded (rt : Runtime)
    (evaluate : value -> value -> outcome value) (event : value) :
  submissions (trace (lambda_handler rt evaluate event)) = [] \/
  exists request resultToken : value,
    submissions (trace (lambda_handler rt evaluate event)) = [request] /\
    get event "resultToken" = Ret resultToken /\
    get request "ResultToken" = Ret resultToken.
Proof.
  destruct (truthy event) eqn:He.
  - destruct (get_truthy event "resultToken" He) as [resultToken Htok].
    assert (H : token_once resultToken (trace (lambda_handler rt evaluate event))).
    { unfold lambda_handler.
      do 3 token_step. apply getConfigurationItem_token. exact Htok. }
    destruct H as [H | [request [H1 H2]]]; [left; exact H | right].
    exists request, resultToken. auto.
  - left. unfold lambda_handler.
    rewrite (checkDefined_falsy _ "event" He). reflexivity.
Qed.

(** A change notification for a compliant instance: one request, with the
    token of the event. *)
Example result_token_example :
  submissions (trace (lambda_handler Demo.runtime evaluateCompliance (Demo.event_of "change")))
  = [JRec [("Evaluations",
            JArr [JRec [("ComplianceResourceType", JStr "AWS::EC2::Instance");
                        ("ComplianceResourceId", JStr "i-0001");
                        ("ComplianceType", JStr "COMPLIANT");
                        ("OrderingTimestamp", JStr "2017-01-01T00:00:00.000Z")]]);
           ("ResultToken", JStr "token-1")]].
Proof. reflexivity. Qed.

(** * Further properties of the script *)

(** ** Which path the resolver takes *)

Lemma bind_Throw {A B} (t : list effect) (e : exn) (f : A -> M B) :
  bind (t, Throw e) f = (t, Throw e).
Proof. reflexivity. Qed.

Lemma bind_pair_Ret {A B} (t : list effect) (a : A) (f : A -> M B) :
  bind (t, Ret a) f = ((t ++ trace (f a))%list, result (f a)).
Proof. unfold bind. destruct (f a). reflexivity. Qed.

Lemma pair_trace_result {A} (m : M A) : (trace m, result m) = m.
Proof. destruct m. reflexivity. Qed.

(** The three branches of [getConfigurationItem], for a notification that
    has a message type. *)
Lemma getConfigurationItem_dispatch (rt : Runtime) (invokingEvent messageType : value)
    (k : value -> value -> M unit) :
  get invokingEvent "messageType" = Ret messageType ->
  truthy messageType = true ->
  getConfigurationItem rt invokingEvent k
  = if strict_eq messageType oversizedType then
      configurationItemSummary <-
        lift (s <~ get invokingEvent "configurationItemSummary" ;;
              checkDefined s "configurationItemSummary") ;;
      resourceType <- lift (get configurationItemSummary "resourceType") ;;
      resourceId <- lift (get configurationItemSummary "resourceId") ;;
      captureTime <- lift (get configurationItemSummary "configurationItemCaptureTime") ;;
      getConfiguration rt resourceType resourceId captureTime
        (fun err apiConfigurationItem =>
           when (truthy err) (k err JUndefined) ;;
           configurationItem <- lift (convertApiConfiguration rt apiConfigurationItem) ;;
           k JNull configurationItem)
    else if strict_eq messageType scheduledType then k JNull JNull
    else
      embedded <- lift (get invokingEvent "configurationItem") ;;
      lift (checkDefined embedded "configurationItem") ;;
      configurationItem <- lift (get invokingEvent "configurationItem") ;;
      k JNull configurationItem.
Proof.
  intros Hmt Ht. unfold getConfigurationItem.
  rewrite (messageType_defined _ _ Hmt Ht), bind_lift_Ret, Hmt.
  unfold isOverSizedChangeNotification, isScheduledNotification.
  cbn [obind]. rewrite (checkDefined_truthy _ "messageType" Ht). cbn [obind].
  rewrite bind_lift_Ret. unfold oversizedType, scheduledType.
  destruct (strict_eq messageType (JStr "OversizedConfigurationItemChangeNotification"));
    [reflexivity | ].
  rewrite bind_lift_Ret. reflexivity.
Qed.

(** X1.  A notification whose message type is neither the oversized nor the
    scheduled one, and that embeds a configuration item, hands exactly that
    item to the callback, with no error; nothing else happens before. *)
Theorem change_notification_resolves (rt : Runtime)
    (invokingEvent messageType item : value) (k : value -> value -> M unit) :
  get invokingEvent "messageType" = Ret messageType ->
  truthy messageType = true ->
  messageType <> oversizedType ->
  messageType <> scheduledType ->
  get invokingEvent "configurationItem" = Ret item ->
  truthy item = true ->
  getConfigurationItem rt invokingEvent k = k JNull item.
Proof.
  intros Hmt Ht Hno Hns Hi Hit.
  rewrite (getConfigurationItem_dispatch rt _ _ k Hmt Ht).
  destruct (strict_eq messageType oversizedType) eqn:Eo.
  { apply strict_eq_JStr in Eo. contradiction. }
  destruct (strict_eq messageType scheduledType) eqn:Es.
  { apply strict_eq_JStr in Es. contradiction. }
  rewrite Hi, bind_lift_Ret, (checkDefined_truthy _ "configurationItem" Hit).
  rewrite !bind_lift_Ret. reflexivity.
Qed.

Lemma change_notification_resolves_witness :
  getConfigurationItem Demo.runtime Demo.change callback = callback JNull Demo.item.
Proof.
  apply (change_notification_resolves Demo.runtime Demo.change
           (JStr "ConfigurationItemChangeNotification") Demo.item callback);
    try reflexivity; discriminate.
Defined.

(** X2.  A scheduled notification hands the callback neither an error nor
    an item, [callback(null, null)], whatever else the notification holds;
    the history service is not asked. *)
Theorem scheduled_notification_resolves_to_null (rt : Runtime)
    (invokingEvent : value) (k : value -> value -> M unit) :
  get invokingEvent "messageType" = Ret scheduledType ->
  getConfigurationItem rt invokingEvent k = k JNull JNull.
Proof.
  intros Hmt.
  rewrite (getConfigurationItem_dispatch rt _ _ k Hmt eq_refl). reflexivity.
Qed.

Lemma scheduled_notification_resolves_to_null_witness :
  getConfigurationItem Demo.runtime Demo.scheduled callback = callback JNull JNull.
Proof.
  apply (scheduled_notification_resolves_to_null Demo.runtime Demo.scheduled callback).
  reflexivity.
Defined.

(** X3.  For an oversized notification, when the history service answers
    without an error, the first of the items it lists is converted and
    handed to the callback, after one history call for the resource type,
    resource id and capture time of the summary, limited to one item. *)
Theorem oversized_notification_resolves (rt : Runtime)
    (invokingEvent summary resourceType resourceId captureTime : value)
    (err data api item : value) (rest : list value) (props : list (string * value))
    (k : value -> value -> M unit) :
  get invokingEvent "messageType" = Ret oversizedType ->
  get invokingEvent "configurationItemSummary" = Ret summary ->
  truthy summary = true ->
  get summary "resourceType" = Ret resourceType ->
  get summary "resourceId" = Ret resourceId ->
  get summary "configurationItemCaptureTime" = Ret captureTime ->
  getResourceConfigHistory rt (historyRequest resourceType resourceId captureTime)
  = (err, data) ->
  truthy err = false ->
  get data "configurationItems" = Ret (JObj (OArray (api :: rest)) props) ->
  convertApiConfiguration rt api = Ret item ->
  getConfigurationItem rt invokingEvent k
  = (GetResourceConfigHistory (historyRequest resourceType resourceId captureTime)
       :: trace (k JNull item),
     result (k JNull item)).
Proof.
  intros Hmt Hsum Hst Hrt Hrid Hcap Hhist Herr Hitems Hconv.
  rewrite (getConfigurationItem_dispatch rt _ _ k Hmt eq_refl).
  cbn [strict_eq oversizedType]. rewrite String.eqb_refl, Hsum. cbn [obind].
  rewrite (checkDefined_truthy _ "configurationItemSummary" Hst), bind_lift_Ret.
  rewrite Hrt, bind_lift_Ret, Hrid, bind_lift_Ret, Hcap, bind_lift_Ret.
  unfold getConfiguration. cbv zeta.
  rewrite bind_emit, Hhist, Herr. cbn [when]. rewrite bind_ret, Hitems.
  cbn [obind get_index nth]. rewrite bind_lift_Ret. cbn [truthy when].
  rewrite bind_ret, Hconv, bind_lift_Ret. reflexivity.
Qed.

Lemma oversized_notification_resolves_witness :
  exists item,
    convertApiConfiguration History.runtime History.record = Ret item /\
    getConfigurationItem History.runtime Demo.oversized callback
    = ([GetResourceConfigHistory
          (historyRequest (JStr "AWS::EC2::Instance") (JStr "i-0001")
             (JStr "2017-01-01T00:00:00.000Z"));
        Callback JNull item], Ret tt).
Proof.
  eexists. split; [reflexivity | ].
  apply (oversized_notification_resolves History.runtime Demo.oversized Demo.summary
           (JStr "AWS::EC2::Instance") (JStr "i-0001") (JStr "2017-01-01T00:00:00.000Z")
           JNull (JRec [("configurationItems", JArr [History.record])])
           History.record _ [] [] callback); reflexivity.
Defined.

(** X4.  For an oversized notification, when the history service answers
    with an error, the handler tells the callback of that error, then tells
    it that scheduled notifications are not supported, and ends in the error
    [isApplicable] raises for the missing item; nothing is sent to the
    tracking service. *)
Theorem history_error_reported_twice (rt : Runtime)
    (evaluate : value -> value -> outcome value)
    (event invokingEvent ruleParameters summary : value)
    (resourceType resourceId captureTime err data : value) :
  truthy event = true ->
  (s <~ get event "invokingEvent" ;; JSON_parse rt s) = Ret invokingEvent ->
  (s <~ get event "ruleParameters" ;; JSON_parse rt s) = Ret ruleParameters ->
  get invokingEvent "messageType" = Ret oversizedType ->
  get invokingEvent "configurationItemSummary" = Ret summary ->
  truthy summary = true ->
  get summary "resourceType" = Ret resourceType ->
  get summary "resourceId" = Ret resourceId ->
  get summary "configurationItemCaptureTime" = Ret captureTime ->
  getResourceConfigHistory rt (historyRequest resourceType resourceId captureTime)
  = (err, data) ->
  truthy err = true ->
  lambda_handler rt evaluate event
  = ([GetResourceConfigHistory (historyRequest resourceType resourceId captureTime);
      Callback err JUndefined;
      Callback (JStr scheduled_message) JUndefined],
     Throw (Error "Error: configurationItem is not defined")).
Proof.
  intros He Hie Hrp Hmt Hsum Hst Hrt Hrid Hcap Hhist Herr.
  unfold lambda_handler.
  rewrite (checkDefined_truthy _ "event" He), bind_lift_Ret.
  rewrite Hie, bind_lift_Ret, Hrp, bind_lift_Ret.
  rewrite (getConfigurationItem_dispatch rt _ _ _ Hmt eq_refl).
  cbn [strict_eq oversizedType]. rewrite String.eqb_refl, Hsum. cbn [obind].
  rewrite (checkDefined_truthy _ "configurationItemSummary" Hst), bind_lift_Ret.
  rewrite Hrt, bind_lift_Ret, Hrid, bind_lift_Ret, Hcap, bind_lift_Ret.
  unfold getConfiguration. cbv zeta.
  rewrite bind_emit, Hhist, Herr. cbn [when].
  rewrite (onConfigurationItem_missing rt evaluate event invokingEvent err JUndefined eq_refl).
  rewrite Herr. reflexivity.
Qed.

Lemma history_error_reported_twice_witness :
  lambda_handler History.throttled evaluateCompliance (Demo.event_of "oversized")
  = ([GetResourceConfigHistory
        (historyRequest (JStr "AWS::EC2::Instance") (JStr "i-0001")
           (JStr "2017-01-01T00:00:00.000Z"));
      Callback (JStr "ThrottlingException") JUndefined;
      Callback (JStr scheduled_message) JUndefined],
     Throw (Error "Error: configurationItem is not defined")).
Proof.
  apply (history_error_reported_twice History.throttled evaluateCompliance
           (Demo.event_of "oversized") Demo.oversized Demo.params Demo.summary
           (JStr "AWS::EC2::Instance") (JStr "i-0001") (JStr "2017-01-01T00:00:00.000Z")
           (JStr "ThrottlingException") JNull); reflexivity.
Defined.

(** X5.  A notification that is itself not defined, or that has no message
    type, makes the resolver raise an error that names what is missing,
    before anything else happens. *)
Theorem notification_without_type_fails (rt : Runtime) (invokingEvent : value)
    (k : value -> value -> M unit) :
  (truthy invokingEvent = false ->
   getConfigurationItem rt invokingEvent k
   = ([], Throw (Error "Error: invokingEvent is not defined"))) /\
  (truthy invokingEvent = true ->
   forall messageType,
     get invokingEvent "messageType" = Ret messageType ->
     truthy messageType = false ->
     getConfigurationItem rt invokingEvent k
     = ([], Throw (Error "Error: messageType is not defined"))).
Proof.
  unfold getConfigurationItem. split.
  - intros Hie. rewrite (checkDefined_falsy _ "invokingEvent" Hie). reflexivity.
  - intros Hie messageType Hmt Hfalsy.
    rewrite (checkDefined_truthy _ "invokingEvent" Hie), bind_lift_Ret, Hmt.
    unfold isOverSizedChangeNotification. cbn [obind].
    rewrite (checkDefined_falsy _ "messageType" Hfalsy). reflexivity.
Qed.

Lemma notification_without_type_fails_witness :
  getConfigurationItem Demo.runtime JNull callback
  = ([], Throw (Error "Error: invokingEvent is not defined")) /\
  getConfigurationItem Demo.runtime (JRec [("configurationItem", Demo.item)]) callback
  = ([], Throw (Error "Error: messageType is not defined")).
Proof.
  split.
  - exact (proj1 (notification_without_type_fails Demo.runtime JNull callback) eq_refl).
  - exact (proj2 (notification_without_type_fails Demo.runtime
                    (JRec [("configurationItem", Demo.item)]) callback)
             eq_refl JUndefined eq_refl eq_refl).
Defined.

(** ** Converting an item of the history service *)

Lemma get_JObj (c : objclass) (props : list (string * value)) (k : string) :
  (k =? "length")%string = false ->
  get (JObj c props) k = Ret (of_option (lookup k props)).
Proof. intros Hk. simpl. rewrite Hk. destruct c; reflexivity. Qed.

Lemma get_same_props (c : objclass) (props props' : list (string * value)) (k : string) :
  lookup k props' = lookup k props ->
  get (JObj c props') k = get (JObj c props) k.
Proof. intros H. simpl. rewrite H. reflexivity. Qed.

Lemma update_lookup_same (k : string) (v : value) (props : list (string * value)) :
  lookup k props = Some v -> update k v props = props.
Proof.
  induction props as [| [k' v'] rest IH]; simpl; [discriminate | ].
  destruct (k =? k')%string eqn:E.
  - intros [= ->]. apply String.eqb_eq in E. subst k'. reflexivity.
  - intros H. rewrite (IH H). reflexivity.
Qed.

Lemma update_update (k : string) (v w : value) (props : list (string * value)) :
  update k v (update k w props) = update k v props.
Proof.
  induction props as [| [k' v'] rest IH]; simpl.
  - rewrite String.eqb_refl. reflexivity.
  - destruct (k =? k')%string eqn:E; simpl.
    + rewrite String.eqb_refl. reflexivity.
    + rewrite E, IH. reflexivity.
Qed.

Lemma store_middle (done rest : list value) (x x' : value) :
  store (List.length done) x' (done ++ x :: rest) = (done ++ x' :: rest)%list.
Proof.
  induction done as [| d done IH]; simpl; [reflexivity | ].
  rewrite IH. reflexivity.
Qed.

Lemma iterations_length (rt : Runtime) (n : nat) :
  iterations rt (JNum (Z.of_nat n)) = n.
Proof. unfold iterations. simpl. apply Nat2Z.id. Qed.

(** The loop of lines 94-96 over a list of objects, part of it done. *)
Lemma renameRelationships_array (c : objclass) (rprops : list (string * value))
    (todo done : list value) (props : list (string * value)) :
  lookup "relationships" props = Some (JObj (OArray (done ++ todo)) rprops) ->
  forallb isObject todo = true ->
  renameRelationships (List.length todo) (List.length done) (JObj c props)
  = Ret (JObj c (update "relationships"
                   (JObj (OArray (done ++ map renamed todo)) rprops) props)).
Proof.
  revert done props.
  induction todo as [| x rest IH]; intros done props Hrel Hobj.
  - simpl. rewrite (update_lookup_same _ _ _ Hrel). reflexivity.
  - simpl in Hobj. apply Bool.andb_true_iff in Hobj. destruct Hobj as [Hx Hrest].
    destruct x as [| | b | n | s | cx q]; try discriminate.
    cbn [List.length renameRelationships]. unfold renameRelationship.
    rewrite (get_JObj c props "relationships" eq_refl), Hrel.
    cbn [of_option obind get_index]. rewrite nth_middle. cbn [obind].
    rewrite (get_JObj cx q "relationshipName" eq_refl).
    cbn [obind set set_index]. rewrite store_middle. cbn [obind].
    specialize (IH (done ++ [JObj cx (update "name"
                                        (of_option (lookup "relationshipName" q)) q)])%list
                  (update "relationships"
                     (JObj (OArray (done ++ JObj cx
                                      (update "name"
                                         (of_option (lookup "relationshipName" q)) q)
                                      :: rest)) rprops) props)).
    rewrite length_app, Nat.add_comm in IH. cbn [List.length Nat.add] in IH.
    rewrite IH.
    + rewrite update_update, <- app_assoc. reflexivity.
    + rewrite lookup_update_same, <- app_assoc. reflexivity.
    + exact Hrest.
Qed.

(** [convertApiConfiguration] on an object whose configuration parses: the
    steps up to the loop. *)
Lemma convertApiConfiguration_object (rt : Runtime) (c : objclass)
    (props : list (string * value)) (configuration : value) :
  JSON_parse rt (of_option (lookup "configuration" props)) = Ret configuration ->
  convertApiConfiguration rt (JObj c props)
  = match lookup "relationships" props with
    | Some relationships =>
        len <~ get relationships "length" ;;
        renameRelationships (iterations rt len) 0
          (JObj c (convertedProps configuration props))
    | None => Ret (JObj c (convertedProps configuration props))
    end.
Proof.
  intros Hparse. unfold convertApiConfiguration.
  rewrite (get_JObj c props "accountId" eq_refl). cbn [obind set].
  rewrite (get_JObj c _ "arn" eq_refl). repeat (rewrite lookup_update_other by reflexivity).
  cbn [obind set].
  rewrite (get_JObj c _ "configurationItemMD5Hash" eq_refl).
  repeat (rewrite lookup_update_other by reflexivity).
  cbn [obind set].
  rewrite (get_JObj c _ "version" eq_refl).
  repeat (rewrite lookup_update_other by reflexivity).
  cbn [obind set].
  rewrite (get_JObj c _ "configuration" eq_refl).
  repeat (rewrite lookup_update_other by reflexivity).
  cbn [obind]. rewrite Hparse. cbn [obind set hasOwnProperty].
  fold (convertedProps configuration props).
  assert (Hrel : lookup "relationships" (convertedProps configuration props)
                 = lookup "relationships" props).
  { unfold convertedProps.
    repeat (rewrite lookup_update_other by reflexivity). reflexivity. }
  rewrite Hrel.
  destruct (lookup "relationships" props) as [relationships | ] eqn:E; [ | reflexivity].
  cbn [obind]. rewrite (get_JObj c _ "relationships" eq_refl), Hrel. reflexivity.
Qed.

Lemma assigned_false (k : string) :
  assigned k = false ->
  (k =? "awsAccountId")%string = false /\ (k =? "ARN")%string = false /\
  (k =? "configurationStateMd5Hash")%string = false /\
  (k =? "configurationItemVersion")%string = false /\
  (k =? "configuration")%string = false /\ (k =? "relationships")%string = false.
Proof.
  unfold assigned, convertedNames. cbn [existsb].
  rewrite !Bool.orb_false_iff. tauto.
Qed.

(** What lines 88-92 leave in the item. *)
Lemma convertedProps_fields (configuration : value) (props : list (string * value)) :
  lookup "awsAccountId" (convertedProps configuration props)
    = Some (of_option (lookup "accountId" props)) /\
  lookup "ARN" (convertedProps configuration props)
    = Some (of_option (lookup "arn" props)) /\
  lookup "configurationStateMd5Hash" (convertedProps configuration props)
    = Some (of_option (lookup "configurationItemMD5Hash" props)) /\
  lookup "configurationItemVersion" (convertedProps configuration props)
    = Some (of_option (lookup "version" props)) /\
  lookup "configuration" (convertedProps configuration props) = Some configuration /\
  (forall k, assigned k = false ->
             lookup k (convertedProps configuration props) = lookup k props).
Proof.
  unfold convertedProps. repeat split.
  - repeat (rewrite lookup_update_other by reflexivity).
    apply lookup_update_same.
  - repeat (rewrite lookup_update_other by reflexivity). apply lookup_update_same.
  - repeat (rewrite lookup_update_other by reflexivity).
    apply lookup_update_same.
  - repeat (rewrite lookup_update_other by reflexivity).
    apply lookup_update_same.
  - apply lookup_update_same.
  - intros k Hk. apply assigned_false in Hk.
    destruct Hk as (H1 & H2 & H3 & H4 & H5 & _).
    rewrite (lookup_update_other k _ _ _ H5), (lookup_update_other k _ _ _ H4),
      (lookup_update_other k _ _ _ H3), (lookup_update_other k _ _ _ H2),
      (lookup_update_other k _ _ _ H1).
    reflexivity.
Qed.

Lemma renamed_name (relationship : value) :
  isObject relationship = true ->
  get (renamed relationship) "name" = get relationship "relationshipName" /\
  (forall k, (k =? "name")%string = false ->
             get (renamed relationship) k = get relationship k).
Proof.
  destruct relationship as [| | b | n | s | c q]; try discriminate. intros _.
  unfold renamed. split.
  - rewrite (get_JObj c _ "name" eq_refl), (get_JObj c q "relationshipName" eq_refl).
    rewrite lookup_update_same. reflexivity.
  - intros k Hk. apply get_same_props. apply lookup_update_other. exact Hk.
Qed.

(** X6.  Converting an item of the history service that is an object with
    a configuration that parses, and without relationships, gives the same
    object with [awsAccountId], [ARN], [configurationStateMd5Hash] and
    [configurationItemVersion] set to its [accountId], [arn],
    [configurationItemMD5Hash] and [version], and [configuration] replaced
    by its parsed form; every other property is as it was. *)
Theorem convertApiConfiguration_renames (rt : Runtime) (api s configuration : value) :
  isObject api = true ->
  get api "configuration" = Ret s ->
  JSON_parse rt s = Ret configuration ->
  hasOwnProperty api "relationships" = Ret false ->
  exists item,
    convertApiConfiguration rt api = Ret item /\
    get item "awsAccountId" = get api "accountId" /\
    get item "ARN" = get api "arn" /\
    get item "configurationStateMd5Hash" = get api "configurationItemMD5Hash" /\
    get item "configurationItemVersion" = get api "version" /\
    get item "configuration" = Ret configuration /\
    (forall k, assigned k = false -> get item k = get api k).
Proof.
  destruct api as [| | b | n | s0 | c props]; try discriminate.
  intros _ Hs Hparse Hown.
  rewrite (get_JObj c props "configuration" eq_refl) in Hs. injection Hs as <-.
  cbn [hasOwnProperty] in Hown.
  destruct (lookup "relationships" props) eqn:Hrel; [discriminate | ].
  exists (JObj c (convertedProps configuration props)).
  rewrite (convertApiConfiguration_object rt c props configuration Hparse), Hrel.
  destruct (convertedProps_fields configuration props) as (H1 & H2 & H3 & H4 & H5 & H6).
  repeat split.
  - rewrite !get_JObj by reflexivity. rewrite H1. reflexivity.
  - rewrite !get_JObj by reflexivity. rewrite H2. reflexivity.
  - rewrite !get_JObj by reflexivity. rewrite H3. reflexivity.
  - rewrite !get_JObj by reflexivity. rewrite H4. reflexivity.
  - rewrite !get_JObj by reflexivity. rewrite H5. reflexivity.
  - intros k Hk. apply get_same_props. apply H6. exact Hk.
Qed.

Lemma convertApiConfiguration_renames_witness :
  exists item,
    convertApiConfiguration History.runtime History.record_without_relationships = Ret item /\
    get item "awsAccountId" = get History.record_without_relationships "accountId" /\
    get item "ARN" = get History.record_without_relationships "arn" /\
    get item "configurationStateMd5Hash"
      = get History.record_without_relationships "configurationItemMD5Hash" /\
    get item "configurationItemVersion" = get History.record_without_relationships "version" /\
    get item "configuration" = Ret (JRec [("instanceType", JStr "t2.micro")]) /\
    (forall k, assigned k = false ->
               get item k = get History.record_without_relationships k).
Proof.
  apply (convertApiConfiguration_renames History.runtime History.record_without_relationships
           (JStr "configuration") (JRec [("instanceType", JStr "t2.micro")]));
    reflexivity.
Defined.

(** X7.  When the item also has a list of relationships that are objects,
    the conversion succeeds and keeps the list's length and order; each
    relationship gets a [name] equal to its [relationshipName] and keeps its
    other properties, and the item's remaining properties are as in X6. *)
Theorem convertApiConfiguration_relationships (rt : Runtime)
    (api s configuration : value) (relationships : list value)
    (rprops : list (string * value)) :
  isObject api = true ->
  get api "configuration" = Ret s ->
  JSON_parse rt s = Ret configuration ->
  get api "relationships" = Ret (JObj (OArray relationships) rprops) ->
  forallb isObject relationships = true ->
  exists (item : value) (relationships' : list value),
    convertApiConfiguration rt api = Ret item /\
    get item "relationships" = Ret (JObj (OArray relationships') rprops) /\
    List.length relationships' = List.length relationships /\
    (forall i r, nth_error relationships i = Some r ->
                 exists r', nth_error relationships' i = Some r' /\
                            get r' "name" = get r "relationshipName" /\
                            (forall k, (k =? "name")%string = false -> get r' k = get r k)) /\
    get item "awsAccountId" = get api "accountId" /\
    get item "ARN" = get api "arn" /\
    get item "configurationStateMd5Hash" = get api "configurationItemMD5Hash" /\
    get item "configurationItemVersion" = get api "version" /\
    get item "configuration" = Ret configuration /\
    (forall k, assigned k = false -> get item k = get api k).
Proof.
  destruct api as [| | b | n | s0 | c props]; try discriminate.
  intros _ Hs Hparse Hrels Hobj.
  rewrite (get_JObj c props "configuration" eq_refl) in Hs. injection Hs as <-.
  rewrite (get_JObj c props "relationships" eq_refl) in Hrels.
  destruct (lookup "relationships" props) as [v | ] eqn:Hrel; [ | discriminate].
  cbn [of_option] in Hrels. injection Hrels as ->.
  destruct (convertedProps_fields configuration props) as (H1 & H2 & H3 & H4 & H5 & H6).
  assert (Hrel' : lookup "relationships" (convertedProps configuration props)
                  = Some (JObj (OArray ([] ++ relationships)) rprops)).
  { unfold convertedProps. repeat (rewrite lookup_update_other by reflexivity).
    exact Hrel. }
  exists (JObj c (update "relationships"
                    (JObj (OArray (map renamed relationships)) rprops)
                    (convertedProps configuration props))),
         (map renamed relationships).
  split.
  { rewrite (convertApiConfiguration_object rt c props configuration Hparse), Hrel.
    cbn [get String.eqb Ascii.eqb Bool.eqb obind]. rewrite iterations_length.
    exact (renameRelationships_array c rprops relationships [] _ Hrel' Hobj). }
  split.
  { rewrite (get_JObj c _ "relationships" eq_refl), lookup_update_same. reflexivity. }
  split; [apply length_map | ].
  split.
  { intros i r Hi. exists (renamed r). split.
    - rewrite nth_error_map, Hi. reflexivity.
    - apply renamed_name.
      rewrite forallb_forall in Hobj. apply Hobj. eapply nth_error_In. exact Hi. }
  repeat split.
  - rewrite !get_JObj by reflexivity.
    rewrite (lookup_update_other "awsAccountId" "relationships" _ _ eq_refl), H1. reflexivity.
  - rewrite !get_JObj by reflexivity.
    rewrite (lookup_update_other "ARN" "relationships" _ _ eq_refl), H2. reflexivity.
  - rewrite !get_JObj by reflexivity.
    rewrite (lookup_update_other "configurationStateMd5Hash" "relationships" _ _ eq_refl), H3.
    reflexivity.
  - rewrite !get_JObj by reflexivity.
    rewrite (lookup_update_other "configurationItemVersion" "relationships" _ _ eq_refl), H4.
    reflexivity.
  - rewrite !get_JObj by reflexivity.
    rewrite (lookup_update_other "configuration" "relationships" _ _ eq_refl), H5.
    reflexivity.
  - intros k Hk. apply get_same_props.
    rewrite (lookup_update_other k "relationships" _ _ (proj2 (proj2 (proj2 (proj2 (proj2
               (assigned_false k Hk))))))).
    apply H6. exact Hk.
Qed.

Lemma convertApiConfiguration_relationships_witness :
  exists (item : value) (relationships' : list value),
    convertApiConfiguration History.runtime History.record = Ret item /\
    get item "relationships" = Ret (JObj (OArray relationships') []) /\
    List.length relationships' = List.length [History.relationship] /\
    (forall i r, nth_error [History.relationship] i = Some r ->
                 exists r', nth_error relationships' i = Some r' /\
                            get r' "name" = get r "relationshipName" /\
                            (forall k, (k =? "name")%string = false -> get r' k = get r k)) /\
    get item "awsAccountId" = get History.record "accountId" /\
    get item "ARN" = get History.record "arn" /\
    get item "configurationStateMd5Hash" = get History.record "configurationItemMD5Hash" /\
    get item "configurationItemVersion" = get History.record "version" /\
    get item "configuration" = Ret (JRec [("instanceType", JStr "t2.micro")]) /\
    (forall k, assigned k = false -> get item k = get History.record k).
Proof.
  apply (convertApiConfiguration_relationships History.runtime History.record
           (JStr "configuration") (JRec [("instanceType", JStr "t2.micro")])
           [History.relationship] []); reflexivity.
Defined.

(** The item the history service holds, converted. *)
Example converted_record :
  convertApiConfiguration History.runtime History.record
  = Ret (JRec [("accountId", JStr "123456789012");
               ("arn", JStr "arn:aws:ec2:i-0001");
               ("configurationItemMD5Hash", JStr "d41d8cd9");
               ("version", JStr "1.2");
               ("resourceType", JStr "AWS::EC2::Instance");
               ("resourceId", JStr "i-0001");
               ("configurationItemStatus", JStr "OK");
               ("configurationItemCaptureTime", JStr "2017-01-01T00:00:00.000Z");
               ("configuration", JRec [("instanceType", JStr "t2.micro")]);
               ("relationships",
                JArr [JRec [("relationshipName", JStr "Is attached to Volume");
                            ("resourceId", JStr "vol-0001");
                            ("name", JStr "Is attached to Volume")]]);
               ("awsAccountId", JStr "123456789012");
               ("ARN", JStr "arn:aws:ec2:i-0001");
               ("configurationStateMd5Hash", JStr "d41d8cd9");
               ("configurationItemVersion", JStr "1.2")]).
Proof. reflexivity. Qed.

(** ** The example rule, at its edges *)

Lemma evaluateCompliance_range (configurationItem ruleParameters v : value) :
  evaluateCompliance configurationItem ruleParameters = Ret v ->
  In v labels.
Proof.
  unfold evaluateCompliance, labels.
  destruct (get configurationItem "resourceType") as [resourceType | e]; cbn [obind];
    [ | discriminate].
  destruct (negb (strict_eq resourceType (JStr "AWS::EC2::Instance"))).
  { intros [= <-]. cbn. auto. }
  destruct (get ruleParameters "desiredInstanceType") as [desired | e]; cbn [obind];
    [ | discriminate].
  destruct (get configurationItem "configuration") as [configuration | e]; cbn [obind];
    [ | discriminate].
  destruct (get configuration "instanceType") as [instanceType | e]; cbn [obind];
    [ | discriminate].
  destruct (strict_eq desired instanceType); intros [= <-]; cbn; auto.
Qed.

(** X8.  Whatever it is given, [evaluateCompliance] returns nothing but
    one of ['COMPLIANT'], ['NON_COMPLIANT'] and ['NOT_APPLICABLE']. *)
Theorem evaluateCompliance_labels (configurationItem ruleParameters v : value) :
  evaluateCompliance configurationItem ruleParameters = Ret v ->
  In v labels.
Proof. apply evaluateCompliance_range. Qed.

Lemma evaluateCompliance_labels_witness : In (JStr "COMPLIANT") labels.
Proof.
  apply (evaluateCompliance_labels Demo.item Demo.params (JStr "COMPLIANT")).
  reflexivity.
Defined.

(** X9.  For an EC2 instance whose [configuration] is [null] or absent,
    [evaluateCompliance] raises a TypeError when it reads the instance
    type. *)
Theorem evaluateCompliance_without_configuration
    (configurationItem ruleParameters desired configuration : value) :
  get configurationItem "resourceType" = Ret (JStr "AWS::EC2::Instance") ->
  get ruleParameters "desiredInstanceType" = Ret desired ->
  get configurationItem "configuration" = Ret configuration ->
  configuration = JNull \/ configuration = JUndefined ->
  evaluateCompliance configurationItem ruleParameters
  = Throw (TypeError ("Cannot read property 'instanceType' of " ++ type_name configuration)).
Proof.
  intros Hrt Hd Hc Hnull. unfold evaluateCompliance.
  rewrite Hrt. cbn [obind strict_eq]. rewrite String.eqb_refl. cbn [negb].
  rewrite Hd. cbn [obind]. rewrite Hc. cbn [obind].
  destruct Hnull as [-> | ->]; reflexivity.
Qed.

Lemma evaluateCompliance_without_configuration_witness :
  evaluateCompliance Deleted.item Demo.params
  = Throw (TypeError "Cannot read property 'instanceType' of null").
Proof.
  apply (evaluateCompliance_without_configuration Deleted.item Demo.params
           (JStr "t2.micro") JNull); try reflexivity.
  left. reflexivity.
Defined.

(** ** Assembling and reporting, the remaining branches *)

Lemma evaluation_defined (configurationItem compliance : value)
    (resourceType resourceId captureTime : value) :
  get configurationItem "resourceType" = Ret resourceType ->
  get configurationItem "resourceId" = Ret resourceId ->
  get configurationItem "configurationItemCaptureTime" = Ret captureTime ->
  evaluation configurationItem compliance
  = Ret (JRec [("ComplianceResourceType", resourceType);
               ("ComplianceResourceId", resourceId);
               ("ComplianceType", compliance);
               ("OrderingTimestamp", captureTime)]).
Proof. intros H1 H2 H3. unfold evaluation. rewrite H1, H2, H3. reflexivity. Qed.

(** X10.  A verdict that is neither a string nor a list (a number, a
    boolean, [null], [undefined], a plain object) is dropped: the request
    holds one evaluation for the item, with ['NOT_APPLICABLE'] as its
    compliance type. *)
Theorem unrecognised_verdict_not_applicable
    (compliance configurationItem resourceType resourceId captureTime : value) :
  isString compliance = false ->
  isArray compliance = false ->
  get configurationItem "resourceType" = Ret resourceType ->
  get configurationItem "resourceId" = Ret resourceId ->
  get configurationItem "configurationItemCaptureTime" = Ret captureTime ->
  assembleRequest compliance configurationItem
  = Ret (JRec [("Evaluations",
                JArr [JRec [("ComplianceResourceType", resourceType);
                            ("ComplianceResourceId", resourceId);
                            ("ComplianceType", JStr "NOT_APPLICABLE");
                            ("OrderingTimestamp", captureTime)]])]).
Proof.
  intros Hs Ha H1 H2 H3. unfold assembleRequest. rewrite Hs, Ha.
  rewrite (evaluation_defined _ (JStr "NOT_APPLICABLE") _ _ _ H1 H2 H3). reflexivity.
Qed.

Lemma unrecognised_verdict_not_applicable_witness :
  assembleRequest (JBool true) Demo.item
  = Ret (JRec [("Evaluations",
                JArr [JRec [("ComplianceResourceType", JStr "AWS::EC2::Instance");
                            ("ComplianceResourceId", JStr "i-0001");
                            ("ComplianceType", JStr "NOT_APPLICABLE");
                            ("OrderingTimestamp", JStr "2017-01-01T00:00:00.000Z")]])]).
Proof.
  apply (unrecognised_verdict_not_applicable (JBool true) Demo.item); reflexivity.
Defined.

(** X11.  When the tracking service answers with an error, the request
    has been sent once and the callback is told of that error, with [null]
    as its data. *)
Theorem reportEvaluations_service_error (rt : Runtime)
    (event putEvaluationsRequest request error data : value) :
  (resultToken <~ get event "resultToken" ;;
   set putEvaluationsRequest "ResultToken" resultToken) = Ret request ->
  putEvaluations rt request = (error, data) ->
  truthy error = true ->
  reportEvaluations rt event putEvaluationsRequest
  = ([PutEvaluations request; Callback error JNull], Ret tt).
Proof.
  intros Hreq Hput Herr. unfold reportEvaluations.
  rewrite Hreq, bind_lift_Ret, bind_emit, Hput, Herr. reflexivity.
Qed.

Lemma reportEvaluations_service_error_witness :
  reportEvaluations Tracking.unavailable (Demo.event_of "change") (JRec [])
  = ([PutEvaluations (JRec [("ResultToken", JStr "token-1")]);
      Callback (JStr "ServiceUnavailable") JNull], Ret tt).
Proof.
  apply (reportEvaluations_service_error Tracking.unavailable (Demo.event_of "change")
           (JRec []) (JRec [("ResultToken", JStr "token-1")])
           (JStr "ServiceUnavailable") JNull); reflexivity.
Defined.

(** X12.  When the tracking service answers without an error and without
    a [FailedEvaluations] list, the handler raises a TypeError after the
    request has been sent; the callback is not invoked. *)
Theorem reportEvaluations_answer_without_list (rt : Runtime)
    (event putEvaluationsRequest request error data : value) :
  (resultToken <~ get event "resultToken" ;;
   set putEvaluationsRequest "ResultToken" resultToken) = Ret request ->
  putEvaluations rt request = (error, data) ->
  truthy error = false ->
  get data "FailedEvaluations" = Ret JUndefined ->
  reportEvaluations rt event putEvaluationsRequest
  = ([PutEvaluations request],
     Throw (TypeError "Cannot read property 'length' of undefined")).
Proof.
  intros Hreq Hput Herr Hfailed. unfold reportEvaluations.
  rewrite Hreq, bind_lift_Ret, bind_emit, Hput, Herr, Hfailed. reflexivity.
Qed.

Lemma reportEvaluations_answer_without_list_witness :
  reportEvaluations Tracking.silent_answer (Demo.event_of "change") (JRec [])
  = ([PutEvaluations (JRec [("ResultToken", JStr "token-1")])],
     Throw (TypeError "Cannot read property 'length' of undefined")).
Proof.
  apply (reportEvaluations_answer_without_list Tracking.silent_answer
           (Demo.event_of "change") (JRec []) (JRec [("ResultToken", JStr "token-1")])
           JNull (JRec [])); reflexivity.
Defined.

(** ** The handler, from the event to the report *)

(** X13.  An event that is not defined, or whose [invokingEvent] or
    [ruleParameters] does not parse, makes the handler raise before it does
    anything else: the rule parameters are parsed up front, also when no
    rule will run. *)
Theorem invalid_event_fails_first (rt : Runtime)
    (evaluate : value -> value -> outcome value) (event : value) :
  (truthy event = false ->
   lambda_handler rt evaluate event = ([], Throw (Error "Error: event is not defined"))) /\
  (truthy event = true ->
   forall e,
     (s <~ get event "invokingEvent" ;; JSON_parse rt s) = Throw e ->
     lambda_handler rt evaluate event = ([], Throw e)) /\
  (truthy event = true ->
   forall invokingEvent e,
     (s <~ get event "invokingEvent" ;; JSON_parse rt s) = Ret invokingEvent ->
     (s <~ get event "ruleParameters" ;; JSON_parse rt s) = Throw e ->
     lambda_handler rt evaluate event = ([], Throw e)).
Proof.
  unfold lambda_handler. repeat split.
  - intros He. rewrite (checkDefined_falsy _ "event" He). reflexivity.
  - intros He e Hie.
    rewrite (checkDefined_truthy _ "event" He), bind_lift_Ret, Hie. reflexivity.
  - intros He invokingEvent e Hie Hrp.
    rewrite (checkDefined_truthy _ "event" He), bind_lift_Ret, Hie, bind_lift_Ret, Hrp.
    reflexivity.
Qed.

Lemma invalid_event_fails_first_witness :
  lambda_handler Demo.runtime evaluateCompliance JUndefined
  = ([], Throw (Error "Error: event is not defined")) /\
  lambda_handler Demo.runtime evaluateCompliance (JRec [("invokingEvent", JStr "{")])
  = ([], Throw (SyntaxError "Unexpected token")) /\
  lambda_handler Demo.runtime evaluateCompliance (JRec [("invokingEvent", JStr "change")])
  = ([], Throw (SyntaxError "Unexpected token")).
Proof.
  split; [ | split].
  - exact (proj1 (invalid_event_fails_first Demo.runtime evaluateCompliance JUndefined)
             eq_refl).
  - exact (proj1 (proj2 (invalid_event_fails_first Demo.runtime evaluateCompliance
                           (JRec [("invokingEvent", JStr "{")])))
             eq_refl (SyntaxError "Unexpected token") eq_refl).
  - exact (proj2 (proj2 (invalid_event_fails_first Demo.runtime evaluateCompliance
                           (JRec [("invokingEvent", JStr "change")])))
             eq_refl Demo.change (SyntaxError "Unexpected token") eq_refl eq_refl).
Defined.

Lemma bind_assoc {A B C} (m : M A) (f : A -> M B) (g : B -> M C) :
  bind (bind m f) g = bind m (fun a => bind (f a) g).
Proof.
  destruct m as [t [a | e]]; [ | reflexivity].
  unfold bind at 2 3. destruct (f a) as [t' [b | e']].
  - unfold bind. destruct (g b) as [t'' r]. rewrite app_assoc. reflexivity.
  - reflexivity.
Qed.

Lemma isApplicable_defined (configurationItem event : value) (b : bool) :
  isApplicable configurationItem event = Ret b ->
  truthy configurationItem = true /\ truthy event = true.
Proof.
  unfold isApplicable, checkDefined.
  destruct (truthy configurationItem); cbn [negb obind]; [ | discriminate].
  destruct (truthy event); cbn [negb obind]; [auto | discriminate].
Qed.

Lemma set_object (v v' x : value) (k : string) :
  set v k x = Ret v' ->
  exists c props, v = JObj c props /\ v' = JObj c (update k x props).
Proof.
  destruct v as [| | b | n | s | c props]; try discriminate.
  intros [= <-]. eauto.
Qed.

(** A change notification with an embedded item: the handler goes on with
    that item. *)
Lemma lambda_handler_change (rt : Runtime) (evaluate : value -> value -> outcome value)
    (event invokingEvent ruleParameters messageType item : value) :
  truthy event = true ->
  (s <~ get event "invokingEvent" ;; JSON_parse rt s) = Ret invokingEvent ->
  (s <~ get event "ruleParameters" ;; JSON_parse rt s) = Ret ruleParameters ->
  get invokingEvent "messageType" = Ret messageType ->
  truthy messageType = true ->
  messageType <> oversizedType ->
  messageType <> scheduledType ->
  get invokingEvent "configurationItem" = Ret item ->
  truthy item = true ->
  lambda_handler rt evaluate event
  = onConfigurationItem rt evaluate event invokingEvent JNull item.
Proof.
  intros He Hie Hrp Hmt Ht Hno Hns Hi Hit. unfold lambda_handler.
  rewrite (checkDefined_truthy _ "event" He), bind_lift_Ret.
  rewrite Hie, bind_lift_Ret, Hrp, bind_lift_Ret.
  rewrite (getConfigurationItem_dispatch rt _ _ _ Hmt Ht).
  destruct (strict_eq messageType oversizedType) eqn:Eo.
  { apply strict_eq_JStr in Eo. contradiction. }
  destruct (strict_eq messageType scheduledType) eqn:Es.
  { apply strict_eq_JStr in Es. contradiction. }
  rewrite Hi, bind_lift_Ret, (checkDefined_truthy _ "configurationItem" Hit).
  rewrite !bind_lift_Ret. reflexivity.
Qed.

(** With an item that is not applicable, no rule runs. *)
Lemma onConfigurationItem_not_applicable (rt : Runtime)
    (evaluate : value -> value -> outcome value) (event invokingEvent item : value) :
  isApplicable item event = Ret false ->
  onConfigurationItem rt evaluate event invokingEvent JNull item
  = (request <- lift (assembleRequest (JStr "NOT_APPLICABLE") item) ;;
     reportEvaluations rt event request).
Proof.
  intros Happ. destruct (isApplicable_defined _ _ _ Happ) as [Hit _].
  unfold onConfigurationItem. rewrite Hit. cbn [truthy negb when].
  rewrite !bind_ret, Happ, bind_lift_Ret, bind_ret. reflexivity.
Qed.

(** With an applicable item, the rule runs on what it parses back out of
    the event, and its verdict is assembled with the resolved item. *)
Lemma onConfigurationItem_applicable (rt : Runtime)
    (evaluate : value -> value -> outcome value)
    (event invokingEvent ruleParameters item : value)
    (invokingEvent' event' parsed item' : value) :
  isApplicable item event = Ret true ->
  (s <~ get event "ruleParameters" ;; JSON_parse rt s) = Ret ruleParameters ->
  set invokingEvent "configurationItem" item = Ret invokingEvent' ->
  set event "invokingEvent" (JSON_stringify rt invokingEvent') = Ret event' ->
  JSON_parse rt (JSON_stringify rt invokingEvent') = Ret parsed ->
  get parsed "configurationItem" = Ret item' ->
  onConfigurationItem rt evaluate event invokingEvent JNull item
  = (emit (ConsoleInfo event') ;;
     compliance <- lift (evaluate item' ruleParameters) ;;
     request <- lift (assembleRequest compliance item) ;;
     reportEvaluations rt event' request).
Proof.
  intros Happ Hrp Hsie Hsev Hround Hitem'.
  destruct (isApplicable_defined _ _ _ Happ) as [Hit _].
  assert (Hget : get event' "invokingEvent" = Ret (JSON_stringify rt invokingEvent')).
  { destruct (set_object _ _ _ _ Hsev) as (c & props & -> & ->).
    apply get_set_same. reflexivity. }
  assert (Hrp' : get event' "ruleParameters" = get event "ruleParameters").
  { apply (get_set_other event event' _ "ruleParameters" "invokingEvent" eq_refl Hsev). }
  unfold onConfigurationItem. rewrite Hit. cbn [truthy negb when].
  rewrite !bind_ret, Happ, bind_lift_Ret.
  rewrite Hsie, bind_lift_Ret, Hsev, bind_lift_Ret.
  unfold rule_handler. rewrite Hget. cbn [obind].
  rewrite Hround, bind_lift_Ret, Hitem', bind_lift_Ret, Hrp', Hrp, bind_lift_Ret.
  rewrite !bind_assoc.
  destruct (evaluate item' ruleParameters) as [compliance | e]; [ | reflexivity].
  rewrite !bind_lift_Ret. cbn [truthy when]. rewrite !bind_assoc, !bind_ret. reflexivity.
Qed.

(** X14.  A change notification whose item is not applicable (deleted, not
    discovered, or out of scope) is reported as ['NOT_APPLICABLE'] for that
    item; the rule is not run and nothing is logged. *)
Theorem inapplicable_item_reported (rt : Runtime)
    (evaluate : value -> value -> outcome value)
    (event invokingEvent ruleParameters messageType item : value)
    (resourceType resourceId captureTime : value) :
  (s <~ get event "invokingEvent" ;; JSON_parse rt s) = Ret invokingEvent ->
  (s <~ get event "ruleParameters" ;; JSON_parse rt s) = Ret ruleParameters ->
  get invokingEvent "messageType" = Ret messageType ->
  truthy messageType = true ->
  messageType <> oversizedType ->
  messageType <> scheduledType ->
  get invokingEvent "configurationItem" = Ret item ->
  isApplicable item event = Ret false ->
  get item "resourceType" = Ret resourceType ->
  get item "resourceId" = Ret resourceId ->
  get item "configurationItemCaptureTime" = Ret captureTime ->
  lambda_handler rt evaluate event
  = reportEvaluations rt event
      (JRec [("Evaluations",
              JArr [JRec [("ComplianceResourceType", resourceType);
                          ("ComplianceResourceId", resourceId);
                          ("ComplianceType", JStr "NOT_APPLICABLE");
                          ("OrderingTimestamp", captureTime)]])]).
Proof.
  intros Hie Hrp Hmt Ht Hno Hns Hi Happ H1 H2 H3.
  destruct (isApplicable_defined _ _ _ Happ) as [Hit He].
  rewrite (lambda_handler_change rt evaluate event invokingEvent ruleParameters
             messageType item He Hie Hrp Hmt Ht Hno Hns Hi Hit).
  rewrite (onConfigurationItem_not_applicable rt evaluate event invokingEvent item Happ).
  unfold assembleRequest. cbn [isString].
  rewrite (evaluation_defined _ (JStr "NOT_APPLICABLE") _ _ _ H1 H2 H3).
  cbn [obind set JRec update]. rewrite bind_lift_Ret. reflexivity.
Qed.

Lemma inapplicable_item_reported_witness :
  lambda_handler Deleted.runtime Deleted.broken_rule (Demo.event_of "deleted")
  = reportEvaluations Deleted.runtime (Demo.event_of "deleted")
      (JRec [("Evaluations",
              JArr [JRec [("ComplianceResourceType", JStr "AWS::EC2::Instance");
                          ("ComplianceResourceId", JStr "i-0001");
                          ("ComplianceType", JStr "NOT_APPLICABLE");
                          ("OrderingTimestamp", JStr "2017-01-02T00:00:00.000Z")]])]).
Proof.
  apply (inapplicable_item_reported Deleted.runtime Deleted.broken_rule
           (Demo.event_of "deleted") Deleted.change Demo.params
           (JStr "ConfigurationItemChangeNotification") Deleted.item);
    try reflexivity; discriminate.
Defined.

(** X15.  A change notification with an applicable item: the handler
    stores the serialized notification in [event.invokingEvent], logs the
    event, runs the rule on the item parsed back out of it and on the parsed
    rule parameters, assembles the verdict with the resolved item, and
    reports it with the changed event. *)
Theorem applicable_item_evaluated (rt : Runtime)
    (evaluate : value -> value -> outcome value)
    (event invokingEvent ruleParameters messageType item : value)
    (invokingEvent' event' parsed item' compliance request : value) :
  (s <~ get event "invokingEvent" ;; JSON_parse rt s) = Ret invokingEvent ->
  (s <~ get event "ruleParameters" ;; JSON_parse rt s) = Ret ruleParameters ->
  get invokingEvent "messageType" = Ret messageType ->
  truthy messageType = true ->
  messageType <> oversizedType ->
  messageType <> scheduledType ->
  get invokingEvent "configurationItem" = Ret item ->
  isApplicable item event = Ret true ->
  set invokingEvent "configurationItem" item = Ret invokingEvent' ->
  set event "invokingEvent" (JSON_stringify rt invokingEvent') = Ret event' ->
  JSON_parse rt (JSON_stringify rt invokingEvent') = Ret parsed ->
  get parsed "configurationItem" = Ret item' ->
  evaluate item' ruleParameters = Ret compliance ->
  assembleRequest compliance item = Ret request ->
  lambda_handler rt evaluate event
  = (ConsoleInfo event' :: trace (reportEvaluations rt event' request),
     result (reportEvaluations rt event' request)).
Proof.
  intros Hie Hrp Hmt Ht Hno Hns Hi Happ Hsie Hsev Hround Hitem' Heval Hreq.
  destruct (isApplicable_defined _ _ _ Happ) as [Hit He].
  rewrite (lambda_handler_change rt evaluate event invokingEvent ruleParameters
             messageType item He Hie Hrp Hmt Ht Hno Hns Hi Hit).
  rewrite (onConfigurationItem_applicable rt evaluate event invokingEvent ruleParameters
             item invokingEvent' event' parsed item' Happ Hrp Hsie Hsev Hround Hitem').
  rewrite Heval, bind_lift_Ret, Hreq, bind_lift_Ret. apply bind_emit.
Qed.

Lemma applicable_item_evaluated_witness :
  lambda_handler Demo.runtime evaluateCompliance (Demo.event_of "change")
  = ([ConsoleInfo (Demo.event_of "changed");
      PutEvaluations
        (JRec [("Evaluations",
                JArr [JRec [("ComplianceResourceType", JStr "AWS::EC2::Instance");
                            ("ComplianceResourceId", JStr "i-0001");
                            ("ComplianceType", JStr "COMPLIANT");
                            ("OrderingTimestamp", JStr "2017-01-01T00:00:00.000Z")]]);
               ("ResultToken", JStr "token-1")]);
      Callback JNull (JRec [("FailedEvaluations", JArr [])])],
     Ret tt).
Proof.
  refine (applicable_item_evaluated Demo.runtime evaluateCompliance
            (Demo.event_of "change") Demo.change Demo.params
            (JStr "ConfigurationItemChangeNotification") Demo.item
            Demo.change (Demo.event_of "changed") Demo.change Demo.item (JStr "COMPLIANT")
            (JRec [("Evaluations",
                    JArr [JRec [("ComplianceResourceType", JStr "AWS::EC2::Instance");
                                ("ComplianceResourceId", JStr "i-0001");
                                ("ComplianceType", JStr "COMPLIANT");
                                ("OrderingTimestamp", JStr "2017-01-01T00:00:00.000Z")]])])
            eq_refl eq_refl eq_refl eq_refl _ _ eq_refl eq_refl eq_refl eq_refl
            eq_refl eq_refl eq_refl eq_refl); discriminate.
Defined.

(** X16.  When the rule raises, the handler ends in that very error right
    after logging the event: the callback is not invoked and nothing is sent
    to the tracking service. *)
Theorem rule_error_propagates (rt : Runtime)
    (evaluate : value -> value -> outcome value)
    (event invokingEvent ruleParameters messageType item : value)
    (invokingEvent' event' parsed item' : value) (e : exn) :
  (s <~ get event "invokingEvent" ;; JSON_parse rt s) = Ret invokingEvent ->
  (s <~ get event "ruleParameters" ;; JSON_parse rt s) = Ret ruleParameters ->
  get invokingEvent "messageType" = Ret messageType ->
  truthy messageType = true ->
  messageType <> oversizedType ->
  messageType <> scheduledType ->
  get invokingEvent "configurationItem" = Ret item ->
  isApplicable item event = Ret true ->
  set invokingEvent "configurationItem" item = Ret invokingEvent' ->
  set event "invokingEvent" (JSON_stringify rt invokingEvent') = Ret event' ->
  JSON_parse rt (JSON_stringify rt invokingEvent') = Ret parsed ->
  get parsed "configurationItem" = Ret item' ->
  evaluate item' ruleParameters = Throw e ->
  lambda_handler rt evaluate event = ([ConsoleInfo event'], Throw e).
Proof.
  intros Hie Hrp Hmt Ht Hno Hns Hi Happ Hsie Hsev Hround Hitem' Heval.
  destruct (isApplicable_defined _ _ _ Happ) as [Hit He].
  rewrite (lambda_handler_change rt evaluate event invokingEvent ruleParameters
             messageType item He Hie Hrp Hmt Ht Hno Hns Hi Hit).
  rewrite (onConfigurationItem_applicable rt evaluate event invokingEvent ruleParameters
             item invokingEvent' event' parsed item' Happ Hrp Hsie Hsev Hround Hitem').
  rewrite Heval. reflexivity.
Qed.

Lemma rule_error_propagates_witness :
  lambda_handler Demo.runtime Deleted.broken_rule (Demo.event_of "change")
  = ([ConsoleInfo (Demo.event_of "changed")], Throw (Error "rule failed")).
Proof.
  refine (rule_error_propagates Demo.runtime Deleted.broken_rule
            (Demo.event_of "change") Demo.change Demo.params
            (JStr "ConfigurationItemChangeNotification") Demo.item
            Demo.change (Demo.event_of "changed") Demo.change Demo.item (Error "rule failed")
            eq_refl eq_refl eq_refl eq_refl _ _ eq_refl eq_refl eq_refl eq_refl
            eq_refl eq_refl eq_refl); discriminate.
Defined.

(** ** How every run ends *)

Lemma callbacks_app (t u : list effect) :
  callbacks (t ++ u) = (callbacks t ++ callbacks u)%list.
Proof. apply flat_map_app. Qed.

Lemma In_callbacks (t : list effect) (err data : value) :
  In (Callback err data) t -> In (err, data) (callbacks t).
Proof.
  intros H. unfold callbacks. apply in_flat_map.
  exists (Callback err data). split; [exact H | left; reflexivity].
Qed.

Lemma failing_without_callbacks (t : list effect) : callbacks t = [] -> failing t.
Proof.
  intros H err data Hin. apply In_callbacks in Hin. rewrite H in Hin. destruct Hin.
Qed.

Lemma failing_app (t u : list effect) : failing t -> failing u -> failing (t ++ u).
Proof.
  intros Ht Hu err data Hin. apply in_app_or in Hin.
  destruct Hin as [Hin | Hin]; [exact (Ht _ _ Hin) | exact (Hu _ _ Hin)].
Qed.

Lemma silent_app (t u : list effect) : silent t -> silent u -> silent (t ++ u).
Proof.
  intros [Ht1 Ht2] [Hu1 Hu2]. split.
  - rewrite submissions_app, Ht1, Hu1. reflexivity.
  - rewrite callbacks_app, Ht2, Hu2. reflexivity.
Qed.

Lemma silent_lift {A} (r : outcome A) : silent (trace (lift r)).
Proof. split; reflexivity. Qed.

Lemma aborted_bind (m : M unit) (f : unit -> M unit) : aborted m -> aborted (bind m f).
Proof.
  intros (Hs & Hf & e & Hr). destruct m as [t r]. cbn [trace result fst snd] in *.
  subst r. rewrite bind_Throw. split; [exact Hs | split; [exact Hf | ]].
  exists e. reflexivity.
Qed.

(** What the reporting step leaves in the trace. *)
Lemma reportEvaluations_trace (rt : Runtime) (event : value)
    (c : objclass) (props : list (string * value)) (resultToken : value) :
  get event "resultToken" = Ret resultToken ->
  let request := JObj c (update "ResultToken" resultToken props) in
  (exists err data,
     reportEvaluations rt event (JObj c props)
     = ([PutEvaluations request; Callback err data], Ret tt)) \/
  (exists e,
     reportEvaluations rt event (JObj c props) = ([PutEvaluations request], Throw e)).
Proof.
  intros Htok request. unfold reportEvaluations. rewrite Htok.
  cbn [obind set]. rewrite bind_lift_Ret, bind_emit. fold request.
  destruct (putEvaluations rt request) as [error data].
  destruct (truthy error).
  { left. exists error, JNull. reflexivity. }
  destruct (f <~ get data "FailedEvaluations" ;; get f "length") as [failed | e].
  - rewrite bind_lift_Ret. left.
    destruct (positive rt failed); eexists; eexists; reflexivity.
  - right. exists e. reflexivity.
Qed.

Section Shape.

Context (rt : Runtime).
Variable evaluate : value -> value -> outcome value.
Variables event invokingEvent : value.

Lemma shaped_bind_silent {A} (m : M A) (f : A -> M unit) :
  silent (trace m) ->
  (forall a, result m = Ret a -> shaped rt evaluate event (f a)) ->
  shaped rt evaluate event (bind m f).
Proof.
  intros Hm Hf. destruct m as [t [a | e]]; cbn [trace result fst snd] in *.
  - rewrite bind_pair_Ret. destruct (Hf a eq_refl) as [Hab | Hrep].
    + left. destruct Hab as (Hs & Hfl & e & Hr). destruct Hm as [Hm1 Hm2].
      repeat split; cbn [trace result fst snd].
      * rewrite submissions_app, Hm1, Hs. reflexivity.
      * apply failing_app; [apply failing_without_callbacks; exact Hm2 | exact Hfl].
      * exists e. exact Hr.
    + right. destruct Hrep as (pre & event' & compliance & item & request & Heq & Hrest).
      exists (t ++ pre)%list, event', compliance, item, request.
      rewrite Heq. cbn [trace result fst snd]. rewrite app_assoc.
      split; [reflexivity | ].
      destruct Hrest as (Hpre & Hrest). split; [apply silent_app; assumption | exact Hrest].
  - left. rewrite bind_Throw. destruct Hm as [Hm1 Hm2].
    repeat split; cbn [trace result fst snd]; eauto using failing_without_callbacks.
Qed.

Lemma onConfigurationItem_aborted (err item : value) :
  truthy item = false ->
  aborted (onConfigurationItem rt evaluate event invokingEvent err item).
Proof.
  intros Hfalsy. rewrite (onConfigurationItem_missing _ _ _ _ _ _ Hfalsy).
  destruct (truthy err) eqn:Herr; repeat split; cbn [trace result fst snd app]; eauto.
  - intros e d [[= <- <-] | [[= <- <-] | []]]; [exact Herr | reflexivity].
  - intros e d [[= <- <-] | []]. reflexivity.
Qed.

(** Running the rule (or not) says nothing to the callback, and hands on an
    event that is defined and has the token of the original. *)
Lemma evaluation_step_silent (applicable : bool) (item : value) :
  truthy event = true ->
  let step :=
    if applicable then
      invokingEvent' <- lift (set invokingEvent "configurationItem" item) ;;
      event' <- lift (set event "invokingEvent" (JSON_stringify rt invokingEvent')) ;;
      rule_handler rt evaluate event'
        (fun err computedCompliance =>
           when (truthy err) (callback err JUndefined) ;;
           ret (event', computedCompliance))
    else ret (event, JStr "NOT_APPLICABLE") in
  silent (trace step) /\
  forall event' compliance,
    result step = Ret (event', compliance) ->
    truthy event' = true /\
    get event' "resultToken" = get event "resultToken" /\
    (compliance = JStr "NOT_APPLICABLE" \/
     exists configurationItem ruleParameters,
       evaluate configurationItem ruleParameters = Ret compliance).
Proof.
  intros He. destruct applicable; cbv zeta.
  2: { split; [split; reflexivity | ]. intros event' compliance [= <- <-]. auto. }
  destruct (set invokingEvent "configurationItem" item) as [invokingEvent' | e1];
    [rewrite bind_lift_Ret | split; [split; reflexivity | discriminate]].
  destruct (set event "invokingEvent" (JSON_stringify rt invokingEvent')) as [event1 | e2] eqn:Hset;
    [rewrite bind_lift_Ret | split; [split; reflexivity | discriminate]].
  unfold rule_handler. rewrite bind_emit.
  destruct (s <~ get event1 "invokingEvent" ;; JSON_parse rt s) as [ie | e3];
    [rewrite bind_lift_Ret | split; [split; reflexivity | discriminate]].
  destruct (get ie "configurationItem") as [ci | e4];
    [rewrite bind_lift_Ret | split; [split; reflexivity | discriminate]].
  destruct (s <~ get event1 "ruleParameters" ;; JSON_parse rt s) as [rp | e5];
    [rewrite bind_lift_Ret | split; [split; reflexivity | discriminate]].
  destruct (evaluate ci rp) as [c | e6] eqn:Heval;
    [rewrite bind_lift_Ret | split; [split; reflexivity | discriminate]].
  cbn [truthy when]. rewrite bind_ret.
  split; [split; reflexivity | ].
  intros event' compliance [= <- <-].
  destruct (set_object _ _ _ _ Hset) as (c0 & props & -> & ->).
  repeat split.
  - apply (get_same_props c0 props _ "resultToken").
    apply lookup_update_other. reflexivity.
  - right. eauto.
Qed.

Lemma onConfigurationItem_shaped (err item : value) :
  (truthy err = true -> truthy item = false) ->
  shaped rt evaluate event (onConfigurationItem rt evaluate event invokingEvent err item).
Proof.
  intros Herr.
  destruct (truthy item) eqn:Hit.
  2: { left. apply onConfigurationItem_aborted. exact Hit. }
  destruct (truthy err) eqn:He; [specialize (Herr eq_refl); discriminate | ].
  unfold onConfigurationItem. rewrite He, Hit. cbn [negb when]. rewrite !bind_ret.
  apply shaped_bind_silent; [apply silent_lift | intros applicable Happ].
  destruct (isApplicable_defined _ _ _ Happ) as [_ Hev].
  destruct (evaluation_step_silent applicable item Hev) as [Hsilent Hstep].
  apply shaped_bind_silent; [exact Hsilent | intros [event' compliance] Hec].
  destruct (Hstep _ _ Hec) as (Hev' & Htok & Horigin).
  apply shaped_bind_silent; [apply silent_lift | intros request Hreq].
  right. exists [], event', compliance, item, request.
  cbn [app]. rewrite pair_trace_result.
  repeat split; try assumption; reflexivity.
Qed.

Lemma getConfigurationItem_shaped :
  shaped rt evaluate event (getConfigurationItem rt invokingEvent
            (onConfigurationItem rt evaluate event invokingEvent)).
Proof.
  unfold getConfigurationItem.
  apply shaped_bind_silent; [apply silent_lift | intros _ _].
  apply shaped_bind_silent; [apply silent_lift | intros oversized _].
  destruct oversized.
  - apply shaped_bind_silent; [apply silent_lift | intros summary _].
    apply shaped_bind_silent; [apply silent_lift | intros resourceType _].
    apply shaped_bind_silent; [apply silent_lift | intros resourceId _].
    apply shaped_bind_silent; [apply silent_lift | intros captureTime _].
    unfold getConfiguration. cbv zeta.
    apply shaped_bind_silent; [split; reflexivity | intros _ _].
    destruct (getResourceConfigHistory rt _) as [err data].
    destruct (truthy err) eqn:Herr; cbn [when].
    + left. rewrite bind_assoc.
      apply aborted_bind. apply onConfigurationItem_aborted. reflexivity.
    + rewrite bind_ret.
      apply shaped_bind_silent; [apply silent_lift | intros api _].
      cbn [truthy when]. rewrite bind_ret.
      apply shaped_bind_silent; [apply silent_lift | intros item _].
      apply onConfigurationItem_shaped. discriminate.
  - apply shaped_bind_silent; [apply silent_lift | intros scheduled _].
    destruct scheduled.
    + apply onConfigurationItem_shaped. discriminate.
    + apply shaped_bind_silent; [apply silent_lift | intros embedded _].
      apply shaped_bind_silent; [apply silent_lift | intros _ _].
      apply shaped_bind_silent; [apply silent_lift | intros item _].
      apply onConfigurationItem_shaped. discriminate.
Qed.

End Shape.

Lemma lambda_handler_shaped (rt : Runtime) (evaluate : value -> value -> outcome value)
    (event : value) :
  shaped rt evaluate event (lambda_handler rt evaluate event).
Proof.
  unfold lambda_handler.
  apply shaped_bind_silent; [apply silent_lift | intros _ _].
  apply shaped_bind_silent; [apply silent_lift | intros invokingEvent _].
  apply shaped_bind_silent; [apply silent_lift | intros ruleParameters _].
  apply getConfigurationItem_shaped.
Qed.

Lemma assembled_is_record (compliance item request : value) :
  assembleRequest compliance item = Ret request ->
  exists e, request = JRec [("Evaluations", JArr [e])] /\
            (isString compliance = true -> get e "ComplianceType" = Ret compliance).
Proof.
  unfold assembleRequest, evaluation.
  destruct (isString compliance).
  - destruct (get item "resourceType") as [a | x]; cbn [obind]; [ | discriminate].
    destruct (get item "resourceId") as [b | x]; cbn [obind]; [ | discriminate].
    destruct (get item "configurationItemCaptureTime") as [c | x]; cbn [obind];
      [ | discriminate].
    intros [= <-]. eexists. split; [reflexivity | intros _; reflexivity].
  - destruct (isArray compliance); [discriminate | ].
    destruct (get item "resourceType") as [a | x]; cbn [obind]; [ | discriminate].
    destruct (get item "resourceId") as [b | x]; cbn [obind]; [ | discriminate].
    destruct (get item "configurationItemCaptureTime") as [c | x]; cbn [obind];
      [ | discriminate].
    intros [= <-]. eexists. split; [reflexivity | discriminate].
Qed.

(** A run that goes through the reporting step, spelled out. *)
Lemma reported_trace (rt : Runtime) (evaluate : value -> value -> outcome value)
    (event : value) (m : M unit) :
  reported rt evaluate event m ->
  exists (pre : list effect) (e compliance resultToken : value),
    silent pre /\
    get event "resultToken" = Ret resultToken /\
    (isString compliance = true -> get e "ComplianceType" = Ret compliance) /\
    (compliance = JStr "NOT_APPLICABLE" \/
     exists configurationItem ruleParameters,
       evaluate configurationItem ruleParameters = Ret compliance) /\
    let request := JRec [("Evaluations", JArr [e]); ("ResultToken", resultToken)] in
    ((exists err data,
        m = ((pre ++ [PutEvaluations request; Callback err data])%list, Ret tt)) \/
     (exists x, m = ((pre ++ [PutEvaluations request])%list, Throw x))).
Proof.
  intros (pre & event' & compliance & item & request & Heq & Hpre & Hit & Hev & Htok
          & Hreq & Horigin).
  destruct (assembled_is_record _ _ _ Hreq) as (e & -> & Hlabel).
  destruct (get_truthy event' "resultToken" Hev) as [resultToken Hget].
  exists pre, e, compliance, resultToken.
  split; [exact Hpre | ]. split; [rewrite <- Htok; exact Hget | ].
  split; [exact Hlabel | ]. split; [exact Horigin | ].
  cbv zeta.
  destruct (reportEvaluations_trace rt event' OPlain [("Evaluations", JArr [e])]
              resultToken Hget) as [(err & data & HR) | (x & HR)];
    unfold JRec in Heq; rewrite HR in Heq; cbn [trace result fst snd update String.eqb
                                                  Ascii.eqb Bool.eqb] in Heq.
  - left. exists err, data. exact Heq.
  - right. exists x. exact Heq.
Qed.

(** X17.  A run of the handler that returns normally has sent exactly one
    request to the tracking service and then invoked the callback exactly
    once; before that it has sent nothing and has not invoked the
    callback. *)
Theorem normal_return_reports_once (rt : Runtime)
    (evaluate : value -> value -> outcome value) (event : value) :
  result (lambda_handler rt evaluate event) = Ret tt ->
  exists (pre : list effect) (request err data : value),
    trace (lambda_handler rt evaluate event)
    = (pre ++ [PutEvaluations request; Callback err data])%list /\
    submissions pre = [] /\ callbacks pre = [].
Proof.
  intros Hret.
  destruct (lambda_handler_shaped rt evaluate event) as [(_ & _ & x & Hx) | Hrep].
  { rewrite Hx in Hret. discriminate. }
  destruct (reported_trace _ _ _ _ Hrep)
    as (pre & e & compliance & resultToken & [Hs Hc] & _ & _ & _ & Hshape).
  cbv zeta in Hshape. destruct Hshape as [(err & data & Heq) | (x & Heq)].
  - exists pre, (JRec [("Evaluations", JArr [e]); ("ResultToken", resultToken)]), err, data.
    rewrite Heq. auto.
  - rewrite Heq in Hret. discriminate.
Qed.

Lemma normal_return_reports_once_witness :
  exists (pre : list effect) (request err data : value),
    trace (lambda_handler Demo.runtime evaluateCompliance (Demo.event_of "change"))
    = (pre ++ [PutEvaluations request; Callback err data])%list /\
    submissions pre = [] /\ callbacks pre = [].
Proof.
  apply (normal_return_reports_once Demo.runtime evaluateCompliance (Demo.event_of "change")).
  reflexivity.
Defined.

(** X18.  A run of the handler that sends nothing to the tracking service
    ends in an exception, and every callback it made carried an error: the
    handler never reports success without having sent the evaluations. *)
Theorem nothing_sent_means_failure (rt : Runtime)
    (evaluate : value -> value -> outcome value) (event : value) :
  submissions (trace (lambda_handler rt evaluate event)) = [] ->
  (exists e, result (lambda_handler rt evaluate event) = Throw e) /\
  failing (trace (lambda_handler rt evaluate event)).
Proof.
  intros Hnone.
  destruct (lambda_handler_shaped rt evaluate event) as [(_ & Hf & x & Hx) | Hrep].
  { split; [exists x; exact Hx | exact Hf]. }
  destruct (reported_trace _ _ _ _ Hrep)
    as (pre & e & compliance & resultToken & [Hs Hc] & _ & _ & _ & Hshape).
  cbv zeta in Hshape.
  destruct Hshape as [(err & data & Heq) | (x & Heq)]; rewrite Heq in Hnone;
    cbn [trace fst] in Hnone; rewrite submissions_app, Hs in Hnone; discriminate.
Qed.

Lemma nothing_sent_means_failure_witness :
  (exists e, result (lambda_handler History.throttled evaluateCompliance
                       (Demo.event_of "oversized")) = Throw e) /\
  failing (trace (lambda_handler History.throttled evaluateCompliance
                    (Demo.event_of "oversized"))).
Proof.
  apply (nothing_sent_means_failure History.throttled evaluateCompliance
           (Demo.event_of "oversized")).
  reflexivity.
Defined.

(** X19.  With the example rule, every request the handler sends holds
    exactly one evaluation, and its compliance type is one of
    ['COMPLIANT'], ['NON_COMPLIANT'] and ['NOT_APPLICABLE']. *)
Theorem example_rule_reports_one_label (rt : Runtime) (event request : value) :
  In request (submissions (trace (lambda_handler rt evaluateCompliance event))) ->
  exists record label,
    records request = [record] /\
    get record "ComplianceType" = Ret label /\
    In label labels.
Proof.
  intros Hin.
  destruct (lambda_handler_shaped rt evaluateCompliance event) as [(Hs & _) | Hrep].
  { rewrite Hs in Hin. destruct Hin. }
  destruct (reported_trace _ _ _ _ Hrep)
    as (pre & e & compliance & resultToken & [Hs Hc] & _ & Hlabel & Horigin & Hshape).
  assert (Hrange : In compliance labels).
  { destruct Horigin as [-> | (ci & rp & Heval)].
    - cbn. auto.
    - exact (evaluateCompliance_range ci rp compliance Heval). }
  assert (Hstr : isString compliance = true).
  { cbn in Hrange. destruct Hrange as [<- | [<- | [<- | []]]]; reflexivity. }
  assert (Hreq : request = JRec [("Evaluations", JArr [e]); ("ResultToken", resultToken)]).
  { cbv zeta in Hshape.
    destruct Hshape as [(err & data & Heq) | (x & Heq)]; rewrite Heq in Hin;
      cbn [trace fst] in Hin; rewrite submissions_app, Hs in Hin;
      destruct Hin as [<- | []]; reflexivity. }
  subst request. exists e, compliance.
  split; [reflexivity | ]. split; [exact (Hlabel Hstr) | exact Hrange].
Qed.

Lemma example_rule_reports_one_label_witness :
  exists record label,
    records (JRec [("Evaluations",
                    JArr [JRec [("ComplianceResourceType", JStr "AWS::EC2::Instance");
                                ("ComplianceResourceId", JStr "i-0001");
                                ("ComplianceType", JStr "COMPLIANT");
                                ("OrderingTimestamp", JStr "2017-01-01T00:00:00.000Z")]]);
                   ("ResultToken", JStr "token-1")]) = [record] /\
    get record "ComplianceType" = Ret label /\
    In label labels.
Proof.
  apply (example_rule_reports_one_label Demo.runtime (Demo.event_of "change")).
  left. reflexivity.
Defined.

(** ** The oversized path, from the event to the report *)

(** X20.  For an oversized notification whose item the history service
    finds, and a runtime whose [JSON.parse] gives back the notification that
    [JSON.stringify] was given: the converted item is stored in the
    notification, the rule runs on exactly that item, and its verdict is
    reported for it, after one history call and one log entry. *)
Theorem oversized_item_evaluated (rt : Runtime)
    (evaluate : value -> value -> outcome value)
    (event invokingEvent ruleParameters summary : value)
    (resourceType resourceId captureTime err data api item : value)
    (rest : list value) (props : list (string * value))
    (invokingEvent' event' compliance request : value) :
  truthy event = true ->
  (s <~ get event "invokingEvent" ;; JSON_parse rt s) = Ret invokingEvent ->
  (s <~ get event "ruleParameters" ;; JSON_parse rt s) = Ret ruleParameters ->
  get invokingEvent "messageType" = Ret oversizedType ->
  get invokingEvent "configurationItemSummary" = Ret summary ->
  truthy summary = true ->
  get summary "resourceType" = Ret resourceType ->
  get summary "resourceId" = Ret resourceId ->
  get summary "configurationItemCaptureTime" = Ret captureTime ->
  getResourceConfigHistory rt (historyRequest resourceType resourceId captureTime)
  = (err, data) ->
  truthy err = false ->
  get data "configurationItems" = Ret (JObj (OArray (api :: rest)) props) ->
  convertApiConfiguration rt api = Ret item ->
  isApplicable item event = Ret true ->
  set invokingEvent "configurationItem" item = Ret invokingEvent' ->
  set event "invokingEvent" (JSON_stringify rt invokingEvent') = Ret event' ->
  JSON_parse rt (JSON_stringify rt invokingEvent') = Ret invokingEvent' ->
  evaluate item ruleParameters = Ret compliance ->
  assembleRequest compliance item = Ret request ->
  lambda_handler rt evaluate event
  = (GetResourceConfigHistory (historyRequest resourceType resourceId captureTime)
       :: ConsoleInfo event'
       :: trace (reportEvaluations rt event' request),
     result (reportEvaluations rt event' request)).
Proof.
  intros He Hie Hrp Hmt Hsum Hst Hrt Hrid Hcap Hhist Herr Hitems Hconv Happ
         Hsie Hsev Hround Heval Hreq.
  assert (Hitem' : get invokingEvent' "configurationItem" = Ret item).
  { destruct (set_object _ _ _ _ Hsie) as (c & q & -> & ->).
    apply get_set_same. reflexivity. }
  unfold lambda_handler.
  rewrite (checkDefined_truthy _ "event" He), bind_lift_Ret.
  rewrite Hie, bind_lift_Ret, Hrp, bind_lift_Ret.
  rewrite (getConfigurationItem_dispatch rt _ _ _ Hmt eq_refl).
  cbn [strict_eq oversizedType]. rewrite String.eqb_refl, Hsum. cbn [obind].
  rewrite (checkDefined_truthy _ "configurationItemSummary" Hst), bind_lift_Ret.
  rewrite Hrt, bind_lift_Ret, Hrid, bind_lift_Ret, Hcap, bind_lift_Ret.
  unfold getConfiguration. cbv zeta.
  rewrite bind_emit, Hhist, Herr. cbn [when]. rewrite bind_ret, Hitems.
  cbn [obind get_index nth]. rewrite bind_lift_Ret. cbn [truthy when].
  rewrite bind_ret, Hconv, bind_lift_Ret.
  rewrite (onConfigurationItem_applicable rt evaluate event invokingEvent ruleParameters
             item invokingEvent' event' invokingEvent' item
             Happ Hrp Hsie Hsev Hround Hitem').
  rewrite Heval, bind_lift_Ret, Hreq, bind_lift_Ret, bind_emit. reflexivity.
Qed.

Lemma oversized_item_evaluated_witness :
  lambda_handler History.faithful evaluateCompliance (Demo.event_of "oversized")
  = ([GetResourceConfigHistory
        (historyRequest (JStr "AWS::EC2::Instance") (JStr "i-0001")
           (JStr "2017-01-01T00:00:00.000Z"));
      ConsoleInfo (Demo.event_of "resolved");
      PutEvaluations
        (JRec [("Evaluations",
                JArr [JRec [("ComplianceResourceType", JStr "AWS::EC2::Instance");
                            ("ComplianceResourceId", JStr "i-0001");
                            ("ComplianceType", JStr "COMPLIANT");
                            ("OrderingTimestamp", JStr "2017-01-01T00:00:00.000Z")]]);
               ("ResultToken", JStr "token-1")]);
      Callback JNull (JRec [("FailedEvaluations", JArr [])])],
     Ret tt).
Proof.
  exact (oversized_item_evaluated History.faithful evaluateCompliance
           (Demo.event_of "oversized") Demo.oversized Demo.params Demo.summary
           (JStr "AWS::EC2::Instance") (JStr "i-0001") (JStr "2017-01-01T00:00:00.000Z")
           JNull (JRec [("configurationItems", JArr [History.record])])
           History.record History.item [] []
           History.resolved (Demo.event_of "resolved") (JStr "COMPLIANT")
           (JRec [("Evaluations",
                   JArr [JRec [("ComplianceResourceType", JStr "AWS::EC2::Instance");
                               ("ComplianceResourceId", JStr "i-0001");
                               ("ComplianceType", JStr "COMPLIANT");
                               ("OrderingTimestamp", JStr "2017-01-01T00:00:00.000Z")]])])
           eq_refl eq_refl eq_refl eq_refl eq_refl eq_refl eq_refl eq_refl eq_refl eq_refl
           eq_refl eq_refl eq_refl eq_refl eq_refl eq_refl eq_refl eq_refl eq_refl).
Defined.

(** A rule that returns nothing is reported as not applicable. *)
Example mute_rule_not_applicable :
  submissions (trace (lambda_handler Demo.runtime Deleted.mute_rule (Demo.event_of "change")))
  = [JRec [("Evaluations",
            JArr [JRec [("ComplianceResourceType", JStr "AWS::EC2::Instance");
                        ("ComplianceResourceId", JStr "i-0001");
                        ("ComplianceType", JStr "NOT_APPLICABLE");
                        ("OrderingTimestamp", JStr "2017-01-01T00:00:00.000Z")]]);
           ("ResultToken", JStr "token-1")]].
Proof. reflexivity. Qed.

(** ** When the history service is asked *)

Lemma lookups_app (t u : list effect) : lookups (t ++ u) = (lookups t ++ lookups u)%list.
Proof. apply flat_map_app. Qed.

Lemma calm_bind {A B} (m : M A) (f : A -> M B) :
  calm m -> (forall a, calm (f a)) -> calm (bind m f).
Proof.
  unfold calm. intros Hm Hf. rewrite trace_bind, lookups_app, Hm. simpl.
  destruct (result m); [apply Hf | reflexivity].
Qed.

Lemma calm_lift {A} (r : outcome A) : calm (lift r).
Proof. reflexivity. Qed.

Lemma calm_ret {A} (a : A) : calm (ret a).
Proof. reflexivity. Qed.

Lemma calm_when_callback (c : bool) (err data : value) : calm (when c (callback err data)).
Proof. destruct c; reflexivity. Qed.

Create HintDb calm.
#[local] Hint Resolve calm_lift calm_ret calm_when_callback : calm.
#[local] Hint Extern 2 (calm (emit _)) => reflexivity : calm.
#[local] Hint Extern 2 (calm (callback _ _)) => reflexivity : calm.

Ltac calm_step := apply calm_bind; [auto with calm | intros ?].

Lemma reportEvaluations_calm (rt : Runtime) (event request : value) :
  calm (reportEvaluations rt event request).
Proof.
  unfold reportEvaluations. do 2 calm_step.
  destruct (putEvaluations rt _) as [error data].
  destruct (truthy error); [reflexivity | ].
  calm_step. destruct (positive rt _); reflexivity.
Qed.

Lemma onConfigurationItem_calm (rt : Runtime) (evaluate : value -> value -> outcome value)
    (event invokingEvent err item : value) :
  calm (onConfigurationItem rt evaluate event invokingEvent err item).
Proof.
  unfold onConfigurationItem. do 3 calm_step.
  apply calm_bind.
  - destruct a1; [ | reflexivity].
    do 2 calm_step. unfold rule_handler. do 5 calm_step. calm_step. reflexivity.
  - intros [event' compliance]. calm_step. apply reportEvaluations_calm.
Qed.

Lemma lookups_bind_lift {A B} (r : outcome A) (f : A -> M B) :
  lookups (trace (bind (lift r) f))
  = match r with Ret a => lookups (trace (f a)) | Throw _ => [] end.
Proof.
  destruct r as [a | e]; [rewrite bind_lift_Ret | ]; reflexivity.
Qed.

(** The steps of [getConfiguration] after the call has been made. *)
Lemma getConfiguration_continuation_calm (rt : Runtime) (err data : value)
    (k : value -> value -> M unit) :
  (forall err item, calm (k err item)) ->
  calm (when (truthy err) (k err JNull) ;;
        configurationItem <-
          lift (items <~ get data "configurationItems" ;; get_index items 0) ;;
        k JNull configurationItem).
Proof.
  intros Hk. apply calm_bind.
  - destruct (truthy err); [apply Hk | reflexivity].
  - intros _. calm_step. apply Hk.
Qed.

Lemma getConfigurationItem_lookups (rt : Runtime) (invokingEvent : value)
    (k : value -> value -> M unit) :
  (forall err item, calm (k err item)) ->
  (List.length (lookups (trace (getConfigurationItem rt invokingEvent k))) <= 1)%nat /\
  (lookups (trace (getConfigurationItem rt invokingEvent k)) <> [] ->
   get invokingEvent "messageType" = Ret oversizedType).
Proof.
  intros Hk.
  assert (Hnone : forall m : M unit,
             lookups (trace m) = [] ->
             (List.length (lookups (trace m)) <= 1)%nat /\
             (lookups (trace m) <> [] ->
              get invokingEvent "messageType" = Ret oversizedType)).
  { intros m ->. split; [cbn; lia | intros H; destruct (H eq_refl)]. }
  destruct (truthy invokingEvent) eqn:Hie.
  2: { apply Hnone. unfold getConfigurationItem.
       rewrite (checkDefined_falsy _ "invokingEvent" Hie). reflexivity. }
  destruct (get_truthy invokingEvent "messageType" Hie) as [messageType Hmt].
  destruct (truthy messageType) eqn:Ht.
  2: { apply Hnone. unfold getConfigurationItem.
       rewrite (checkDefined_truthy _ "invokingEvent" Hie), bind_lift_Ret, Hmt.
       unfold isOverSizedChangeNotification. cbn [obind].
       rewrite (checkDefined_falsy _ "messageType" Ht). reflexivity. }
  rewrite (getConfigurationItem_dispatch rt _ _ k Hmt Ht).
  destruct (strict_eq messageType oversizedType) eqn:Eo.
  - apply strict_eq_JStr in Eo. subst messageType.
    split; [ | intros _; exact Hmt].
    rewrite lookups_bind_lift.
    destruct (s <~ get invokingEvent "configurationItemSummary" ;;
              checkDefined s "configurationItemSummary") as [summary | e]; [ | cbn; lia].
    rewrite lookups_bind_lift.
    destruct (get summary "resourceType") as [resourceType | e]; [ | cbn; lia].
    rewrite lookups_bind_lift.
    destruct (get summary "resourceId") as [resourceId | e]; [ | cbn; lia].
    rewrite lookups_bind_lift.
    destruct (get summary "configurationItemCaptureTime") as [captureTime | e];
      [ | cbn; lia].
    unfold getConfiguration. cbv zeta. rewrite bind_emit.
    cbn [trace fst lookups flat_map app List.length].
    destruct (getResourceConfigHistory rt _) as [err data].
    assert (Hcalm : forall err' item, calm
              (when (truthy err') (k err' JUndefined) ;;
               configurationItem <- lift (convertApiConfiguration rt item) ;;
               k JNull configurationItem)).
    { intros err' item. apply calm_bind.
      - destruct (truthy err'); [apply Hk | reflexivity].
      - intros _. calm_step. apply Hk. }
    pose proof (getConfiguration_continuation_calm rt err data _ Hcalm) as Hrest.
    unfold calm, lookups in Hrest. rewrite Hrest. cbn. lia.
  - apply Hnone. destruct (strict_eq messageType scheduledType); [apply Hk | ].
    fold (@calm unit). do 3 calm_step. apply Hk.
Qed.

(** X21.  The handler asks the history service at most once, and only for
    a notification whose message type is the oversized one. *)
Theorem history_asked_only_when_oversized (rt : Runtime)
    (evaluate : value -> value -> outcome value) (event : value) :
  (List.length (lookups (trace (lambda_handler rt evaluate event))) <= 1)%nat /\
  (lookups (trace (lambda_handler rt evaluate event)) <> [] ->
   exists invokingEvent,
     (s <~ get event "invokingEvent" ;; JSON_parse rt s) = Ret invokingEvent /\
     get invokingEvent "messageType" = Ret oversizedType).
Proof.
  unfold lambda_handler. rewrite lookups_bind_lift.
  destruct (checkDefined event "event") as [ev | e];
    [ | split; [cbn; lia | intros H; destruct (H eq_refl)]].
  rewrite lookups_bind_lift.
  destruct (s <~ get event "invokingEvent" ;; JSON_parse rt s) as [invokingEvent | e];
    [ | split; [cbn; lia | intros H; destruct (H eq_refl)]].
  rewrite lookups_bind_lift.
  destruct (s <~ get event "ruleParameters" ;; JSON_parse rt s) as [ruleParameters | e];
    [ | split; [cbn; lia | intros H; destruct (H eq_refl)]].
  destruct (getConfigurationItem_lookups rt invokingEvent
              (onConfigurationItem rt evaluate event invokingEvent)
              (onConfigurationItem_calm rt evaluate event invokingEvent)) as [Hle Hover].
  split; [exact Hle | ]. intros Hne. exists invokingEvent. auto.
Qed.

(** An oversized notification: one history call.  A change notification:
    none. *)
Example history_asked_example :
  lookups (trace (lambda_handler History.faithful evaluateCompliance (Demo.event_of "oversized")))
  = [historyRequest (JStr "AWS::EC2::Instance") (JStr "i-0001")
       (JStr "2017-01-01T00:00:00.000Z")] /\
  lookups (trace (lambda_handler Demo.runtime evaluateCompliance (Demo.event_of "change")))
  = [].
Proof. split; reflexivity. Qed.

Lemma history_asked_only_when_oversized_witness :
  exists invokingEvent,
    (s <~ get (Demo.event_of "oversized") "invokingEvent" ;;
     JSON_parse History.faithful s) = Ret invokingEvent /\
    get invokingEvent "messageType" = Ret oversizedType.
Proof.
  apply (proj2 (history_asked_only_when_oversized History.faithful evaluateCompliance
                  (Demo.event_of "oversized"))).
  discriminate.
Defined.

(** ** Empty batches *)



